(** * Balance reservation and transaction settlement of the transfer backend

    A shallow embedding of the ledger code of the repository:

    - [ExchangeRateService]                    (src/services/exchangeRateService.ts)
    - [CircleService], [RampnowService]        (gateway call, webhook signatures)
    - [TransactionController.createTransfer],
      [TransactionController.updateTransactionStatus],
      [TransactionController.calculateTransferFees]
                                               (src/controllers/transactionController.ts)
    - [WalletController.addFunds],
      [WalletController.addCurrencyWallet]     (walletController)
    - [WebhookController.handleCircleWebhook],
      [RampnowWebhookController.handle]        (src/controllers/webhookController.ts)

    Conventions of the embedding.

    - The relational store behind [prisma] is a record of tables, every table
      a list of rows in insertion order; [findFirst] is [List.find], an
      [update] rewrites the rows whose primary key matches, a [create]
      appends a row.  The store is threaded explicitly: every handler maps a
      store to the store it leaves behind and the HTTP response it sends.
      The handlers run no database transaction, so the writes made before an
      exception is thrown stay in the store.
    - Numbers are the binary64 numbers of JavaScript, Rocq's primitive
      [float]: [+], [-], [*], [/] and the comparisons are the IEEE 754
      operations.  The DECIMAL columns of the SQLite schema hold such
      numbers too ([increment] and [decrement] are computed by the store in
      binary64), and a column read with [parseFloat(x.toString())] gives
      the number that was written.
    - The [amount] of a transfer is the JSON value of the request body:
      [validate] checks the body against the Joi schema and hands the body
      on as it came, so the handler receives a number, or a string that
      reads as one.  The JavaScript conversions between strings and numbers
      ([Number], [String], [parseFloat], [toFixed]) are the functions of
      the module [Js].  Strings are ASCII.
    - Everything the handler reads from outside the store is an argument:
      the generated primary key of a new row, the clock, the table returned
      by the quote API, the answer of the Circle Gateway call.  A failure
      of the store itself (connection lost, constraint violated) is not
      modelled; the store refusing a value that is no decimal is.
    - The TEXT columns [status] and [type] hold strings, as in the
      migration.
    - A response is its HTTP status code, its [success] flag and, for
      [createTransfer], the fee breakdown; message texts and the recipient
      fields of a transfer, which no handler reads back, are left out. *)

From Stdlib Require Import Bool List String Ascii ZArith QArith Qround Lia Floats.
Import ListNotations.

Open Scope string_scope.
Open Scope list_scope.

(** Decimal literals stand for the nearest binary64 number, as in
    JavaScript. *)
#[global] Set Warnings "-inexact-float".

(** ** JavaScript numbers and their texts *)

Module Js.

(** *** Between binary64 and the rationals *)

(** [m * 2^e] for [0 <= m <= 2^53]. *)
Definition ldexpZ (m e : Z) : float := Z.ldexp (of_uint63 (Uint63.of_Z m)) e.

(** The binary64 number nearest to [n / d] for [n > 0], a tie going to the
    even mantissa: the quotient is scaled into [2^52, 2^53) (or to the
    least exponent, for a subnormal result) and rounded there. *)
Definition roundMagnitude (n : Z) (d : positive) : float :=
  let e0 := (Z.log2 n - Z.log2 (Zpos d) - 53)%Z in
  let scaled (e : Z) : Z * Z :=
    if (0 <=? e)%Z then (n, Zpos d * 2 ^ e)%Z else (n * 2 ^ (- e), Zpos d)%Z in
  let e1 := Z.max e0 (-1074) in
  let e := if (2 ^ 53 <=? fst (scaled e1) / snd (scaled e1))%Z
           then (e1 + 1)%Z else e1 in
  let num := fst (scaled e) in
  let den := snd (scaled e) in
  let q := (num / den)%Z in
  let r := (num mod den)%Z in
  let m := match (2 * r ?= den)%Z with
           | Gt => (q + 1)%Z
           | Eq => if Z.even q then q else (q + 1)%Z
           | Lt => q
           end in
  if (971 <? e)%Z then infinity else ldexpZ m e.

(** The number nearest to [|q|], with the sign [neg]. *)
Definition ofQ (neg : bool) (q : Q) : float :=
  let x := match Qnum q with
           | Z0 => zero
           | Zpos n => roundMagnitude (Zpos n) (Qden q)
           | Zneg n => roundMagnitude (Zpos n) (Qden q)
           end in
  if neg then (- x)%float else x.

Definition pow2Q (e : Z) : Q :=
  match e with
  | Z0 => 1
  | Zpos p => (2 ^ Zpos p)%Z # 1
  | Zneg p => 1 # (2 ^ p)%positive
  end.

Definition pow10Q (e : Z) : Q :=
  match e with
  | Z0 => 1
  | Zpos p => (10 ^ Zpos p)%Z # 1
  | Zneg p => 1 # (10 ^ p)%positive
  end.

(** *** Reading a number: StrDecimalLiteral *)

Definition digitOf (c : ascii) : option Z :=
  let n := Z.of_N (N_of_ascii c) in
  if ((48 <=? n) && (n <=? 57))%Z then Some (n - 48)%Z else None.

(** The digits at the head of [s], read after [acc]: the value, how many
    digits were read, and the rest of the string. *)
Fixpoint digits (s : string) (acc count : Z) : Z * Z * string :=
  match s with
  | String c r =>
      match digitOf c with
      | Some d => digits r (acc * 10 + d)%Z (count + 1)%Z
      | None => (acc, count, s)
      end
  | EmptyString => (acc, count, s)
  end.

(** ExponentPart, taken only when a digit follows the [e]. *)
Definition exponentPart (s : string) : Z * string :=
  match s with
  | String c r =>
      if (Ascii.eqb c "e" || Ascii.eqb c "E")%bool then
        let '(neg, r') :=
          match r with
          | String "+" r2 => (false, r2)
          | String "-" r2 => (true, r2)
          | _ => (false, r)
          end in
        let '(v, n, rest) := digits r' 0 0 in
        if (n =? 0)%Z then (0%Z, s) else ((if neg then - v else v)%Z, rest)
      else (0%Z, s)
  | EmptyString => (0%Z, s)
  end.

Fixpoint dropPrefix (p s : string) : option string :=
  match p, s with
  | EmptyString, _ => Some s
  | String a p', String b s' => if Ascii.eqb a b then dropPrefix p' s' else None
  | String _ _, EmptyString => None
  end.

(** The longest StrUnsignedDecimalLiteral at the head of [s], as the
    number it denotes, and the rest of the string. *)
Definition unsignedLiteral (s : string) : option (float * string) :=
  match dropPrefix "Infinity" s with
  | Some rest => Some (infinity, rest)
  | None =>
      let '(i, ni, r1) := digits s 0 0 in
      let '(m, nf, r2) :=
        match r1 with
        | String "." r =>
            let '(m, nf, r2) := digits r i 0 in
            if ((ni =? 0) && (nf =? 0))%Z then (i, 0%Z, r1) else (m, nf, r2)
        | _ => (i, 0%Z, r1)
        end in
      if ((ni =? 0) && (nf =? 0))%Z then None
      else
        let '(e, rest) := exponentPart r2 in
        Some (ofQ false ((m # 1) * pow10Q (e - nf)), rest)
  end.

(** The longest StrDecimalLiteral at the head of [s]. *)
Definition decimalLiteral (s : string) : option (float * string) :=
  match s with
  | String "-" r =>
      match unsignedLiteral r with
      | Some (x, rest) => Some ((- x)%float, rest)
      | None => None
      end
  | String "+" r => unsignedLiteral r
  | _ => unsignedLiteral s
  end.

Definition isWhiteSpace (c : ascii) : bool :=
  let n := N_of_ascii c in
  ((9 <=? n) && (n <=? 13) || (n =? 32))%N.

Fixpoint trimStart (s : string) : string :=
  match s with
  | String c r => if isWhiteSpace c then trimStart r else s
  | EmptyString => s
  end.

Fixpoint allWhiteSpace (s : string) : bool :=
  match s with
  | String c r => isWhiteSpace c && allWhiteSpace r
  | EmptyString => true
  end.

(** [parseFloat(s)]: the longest decimal literal after leading white
    space, [NaN] without one. *)
Definition parseFloat (s : string) : float :=
  match decimalLiteral (trimStart s) with
  | Some (x, _) => x
  | None => nan
  end.

Definition digitIn (base : Z) (c : ascii) : option Z :=
  let n := Z.of_N (N_of_ascii c) in
  let v := if ((48 <=? n) && (n <=? 57))%Z then (n - 48)%Z
           else if ((97 <=? n) && (n <=? 122))%Z then (n - 87)%Z
           else if ((65 <=? n) && (n <=? 90))%Z then (n - 55)%Z
           else 99%Z in
  if (v <? base)%Z then Some v else None.

Fixpoint digitsIn (base : Z) (s : string) (acc : Z) : option Z :=
  match s with
  | String c r =>
      match digitIn base c with
      | Some d => digitsIn base r (acc * base + d)%Z
      | None => if allWhiteSpace s then Some acc else None
      end
  | EmptyString => Some acc
  end.

(** NonDecimalIntegerLiteral: [0x], [0o] or [0b] and at least one digit. *)
Definition nonDecimalLiteral (s : string) : option float :=
  match s with
  | String "0" (String p (String c r)) =>
      let base :=
        if (Ascii.eqb p "x" || Ascii.eqb p "X")%bool then 16%Z
        else if (Ascii.eqb p "o" || Ascii.eqb p "O")%bool then 8%Z
        else if (Ascii.eqb p "b" || Ascii.eqb p "B")%bool then 2%Z
        else 0%Z in
      match digitIn base c with
      | Some d =>
          match digitsIn base r d with
          | Some v => Some (ofQ false (v # 1))
          | None => None
          end
      | None => None
      end
  | _ => None
  end.

(** [Number(s)], the conversion applied where a string meets [*] or a
    comparison with a number: the whole string, white space apart, has to
    be a numeric literal; the empty string is 0. *)
Definition toNumber (s : string) : float :=
  let t := trimStart s in
  match t with
  | EmptyString => zero
  | _ =>
      match nonDecimalLiteral t with
      | Some x => x
      | None =>
          match decimalLiteral t with
          | Some (x, rest) => if allWhiteSpace rest then x else nan
          | None => nan
          end
      end
  end.

(** *** Writing a number: Number::toString *)

Definition digitChar (d : Z) : ascii := ascii_of_N (Z.to_N (48 + d)).

Fixpoint digitsOfFuel (fuel : nat) (n : Z) (acc : string) : string :=
  match fuel with
  | O => acc
  | S f =>
      let acc' := String (digitChar (n mod 10)) acc in
      if (n <? 10)%Z then acc' else digitsOfFuel f (n / 10)%Z acc'
  end.

(** The decimal digits of a natural number. *)
Definition digitsOf (n : Z) : string :=
  digitsOfFuel (S (Z.to_nat (Z.log2 n))) n "".

Fixpoint zeros (n : nat) : string :=
  match n with
  | O => ""
  | S k => String "0" (zeros k)
  end.

Fixpoint takeString (n : nat) (s : string) : string :=
  match n, s with
  | S k, String c r => String c (takeString k r)
  | _, _ => ""
  end.

Fixpoint dropString (n : nat) (s : string) : string :=
  match n, s with
  | S k, String c r => dropString k r
  | _, _ => s
  end.

(** The interval of the rationals that round to the finite number with
    mantissa [m] and exponent [e], and whether its ends belong to it (they
    do when the mantissa is even). *)
Definition roundingInterval (m : positive) (e : Z) : Q * Q * bool :=
  let v := (Zpos m # 1) * pow2Q e in
  let half := pow2Q (e - 1) in
  let low :=
    if (Pos.eqb m (2 ^ 52) && (-1074 <? e)%Z)%bool
    then v - pow2Q (e - 2) else v - half in
  (low, v + half, Z.even (Zpos m)).

Definition inInterval (i : Q * Q * bool) (q : Q) : bool :=
  let '(low, high, closed) := i in
  if closed then Qle_bool low q && Qle_bool q high
  else negb (Qle_bool q low) && negb (Qle_bool high q).

(** The [n] with [10^(n-1) <= v < 10^n], for [v > 0], from an estimate. *)
Fixpoint raiseExp (fuel : nat) (v : Q) (n : Z) : Z :=
  match fuel with
  | O => n
  | S f => if Qle_bool (pow10Q n) v then raiseExp f v (n + 1)%Z else n
  end.

Fixpoint lowerExp (fuel : nat) (v : Q) (n : Z) : Z :=
  match fuel with
  | O => n
  | S f => if Qle_bool (pow10Q (n - 1)) v then n else lowerExp f v (n - 1)%Z
  end.

Definition decimalExponent (v : Q) : Z :=
  let guess := ((Z.log2 (Qnum v) - Z.log2 (Zpos (Qden v))) * 30103 / 100000)%Z in
  raiseExp 8 v (lowerExp 8 v (guess + 2)%Z).

Definition distance (a b : Q) : Q := if Qle_bool a b then b - a else a - b.

(** The digits [s] and the exponent [p] of the shortest decimal [s * 10^p]
    that rounds to the number [v]: with [k] significant digits the two
    decimals around [v] are tried, then with [k + 1]; of two that fit the
    nearer one is taken, the even one when they are as near. *)
Fixpoint shortest (fuel : nat) (i : Q * Q * bool) (v : Q) (n k : Z) : Z * Z :=
  let p := (n - k)%Z in
  let c1 := Qfloor (v * pow10Q (- p)) in
  let c2 := (c1 + 1)%Z in
  let q1 := (c1 # 1) * pow10Q p in
  let q2 := (c2 # 1) * pow10Q p in
  let ok1 := ((0 <? c1)%Z && inInterval i q1)%bool in
  let ok2 := inInterval i q2 in
  let pick1 :=
    match Qcompare (distance q1 v) (distance q2 v) with
    | Lt => true
    | Gt => false
    | Eq => Z.even c1
    end in
  match fuel with
  | O => (c1, p)
  | S f =>
      if ok1 && ok2 then (if pick1 then (c1, p) else (c2, p))
      else if ok1 then (c1, p)
      else if ok2 then (c2, p)
      else shortest f i v n (k + 1)%Z
  end.

Fixpoint stripZeros (fuel : nat) (s p : Z) : Z * Z :=
  match fuel with
  | O => (s, p)
  | S f => if ((s mod 10 =? 0) && (0 <? s))%Z then stripZeros f (s / 10)%Z (p + 1)%Z
           else (s, p)
  end.

Definition exponentText (n : Z) : string :=
  (if (0 <=? n)%Z then "e+" else "e-") ++ digitsOf (Z.abs n).

(** The text of the positive finite number [m * 2^e]: with [k] digits and
    the decimal point after the [n]-th, plain from [1e-6] up to [1e21],
    with an exponent otherwise. *)
Definition positiveToString (m : positive) (e : Z) : string :=
  let v := (Zpos m # 1) * pow2Q e in
  let '(s0, p0) := shortest 17 (roundingInterval m e) v (decimalExponent v) 1 in
  let '(s, p) := stripZeros 400 s0 p0 in
  let ds := digitsOf s in
  let k := Z.of_nat (String.length ds) in
  let n := (p + k)%Z in
  if ((k <=? n) && (n <=? 21))%Z then ds ++ zeros (Z.to_nat (n - k))
  else if ((0 <? n) && (n <=? 21))%Z
  then takeString (Z.to_nat n) ds ++ "." ++ dropString (Z.to_nat n) ds
  else if ((-6 <? n) && (n <=? 0))%Z then "0." ++ zeros (Z.to_nat (- n)) ++ ds
  else if (k =? 1)%Z then ds ++ exponentText (n - 1)
  else takeString 1 ds ++ "." ++ dropString 1 ds ++ exponentText (n - 1).

(** [String(x)], the conversion applied where a number meets a string
    under [+]. *)
Definition toString (x : float) : string :=
  match Prim2SF x with
  | S754_nan => "NaN"
  | S754_zero _ => "0"
  | S754_infinity s => if s then "-Infinity" else "Infinity"
  | S754_finite s m e => (if s then "-" else "") ++ positiveToString m e
  end.

(** *** [x.toFixed(d)] read back with [parseFloat] *)

(** [toFixed] takes the integer [n] nearest to [|x| * 10^d], the larger one
    of two, on the exact value of [x], and writes [n / 10^d] with the sign
    of [x]; from [1e21] on it writes the number as [String] does. *)
Definition toFixed (d : Z) (x : float) : float :=
  match Prim2SF x with
  | S754_finite s m e =>
      let v := (Zpos m # 1) * pow2Q e in
      if Qle_bool (pow10Q 21) v then x
      else ofQ s ((Qfloor (v * pow10Q d + (1 # 2)) # 1) * pow10Q (- d))
  | S754_zero _ => zero
  | _ => x
  end.

(** *** Truthiness *)

(** A number is falsy when it is [0], [-0] or [NaN]. *)
Definition truthy (x : float) : bool := negb ((x =? 0)%float || negb (x =? x)%float).

End Js.

Close Scope Q_scope.
Open Scope float_scope.

(** ** JavaScript values *)

Definition Money := float.

(** The value of a body member validated by [Joi.number()]: a number, or
    a string that reads as a number. *)
Inductive Numeric :=
| Num (x : float)
| Str (s : string).

(** The operand of [*] and of a comparison with a number. *)
Definition toNum (a : Numeric) : float :=
  match a with
  | Num x => x
  | Str s => Js.toNumber s
  end.

(** [a + y] for a number [y]: the sum for a number, the concatenation with
    the text of [y] for a string. *)
Definition plus (a : Numeric) (y : float) : Numeric :=
  match a with
  | Num x => Num (x + y)
  | Str s => Str (s ++ Js.toString y)
  end.

(** [!x] for a string that may be [undefined]: the empty string is falsy. *)
Definition truthyStr (o : option string) : option string :=
  match o with
  | Some "" => None
  | Some s => Some s
  | None => None
  end.

(** [a || b] on optional strings. *)
Definition orStr (a b : option string) : option string :=
  match truthyStr a with
  | Some s => Some s
  | None => b
  end.

Definition truthyNumOpt (o : option float) : option float :=
  match o with
  | Some x => if Js.truthy x then Some x else None
  | None => None
  end.

Definition upperChar (c : ascii) : ascii :=
  let n := nat_of_ascii c in
  if ((97 <=? n) && (n <=? 122))%nat then ascii_of_nat (n - 32) else c.

Definition lowerChar (c : ascii) : ascii :=
  let n := nat_of_ascii c in
  if ((65 <=? n) && (n <=? 90))%nat then ascii_of_nat (n + 32) else c.

Fixpoint mapString (f : ascii -> ascii) (s : string) : string :=
  match s with
  | EmptyString => EmptyString
  | String c r => String (f c) (mapString f r)
  end.

Definition toUpperCase : string -> string := mapString upperChar.
Definition toLowerCase : string -> string := mapString lowerChar.

Definition optStrEqb (a : option string) (b : string) : bool :=
  match a with
  | Some s => String.eqb s b
  | None => false
  end.

(** ** Data model (prisma schema, migration.sql) *)

Definition Status := string.
Definition PENDING : Status := "PENDING".
Definition PROCESSING : Status := "PROCESSING".
Definition COMPLETED : Status := "COMPLETED".
Definition FAILED : Status := "FAILED".

Record Wallet := mkWallet {
  w_id : string;
  w_userId : string;
  w_currency : string;
  balance : Money;
  availableBalance : Money;
  reservedBalance : Money;
  isActive : bool
}.

Record Transaction := mkTransaction {
  t_id : string;
  t_userId : string;
  t_walletId : string;
  t_type : string;
  t_status : Status;
  t_amount : Money;
  t_currency : string;
  t_fee : Money;
  t_exchangeRate : option float;
  t_recipientCurrency : option string;
  t_circleTransferId : option string;
  t_circleStatus : option string;
  t_completedAt : option Z;
  t_description : option string
}.

Record StatusHistory := mkStatusHistory {
  h_transactionId : string;
  h_status : Status;
  h_message : string
}.

Record ExchangeRate := mkExchangeRate {
  fromCurrency : string;
  toCurrency : string;
  rate : float;
  timestamp : Z;
  source : string
}.

Record OnrampTransaction := mkOnrampTransaction {
  o_id : string;
  o_userId : string;
  o_walletId : string;
  o_status : Status;
  o_usdcAmount : Money;
  o_circleTransferId : option string;
  o_circleStatus : option string;
  o_completedAt : option Z;
  o_description : option string
}.

Record Store := mkStore {
  wallets : list Wallet;
  transactions : list Transaction;
  statusHistory : list StatusHistory;
  exchangeRates : list ExchangeRate;
  onrampTransactions : list OnrampTransaction;
  onrampStatusHistory : list StatusHistory
}.

(** The authenticated principal [req.user]. *)
Record User := mkUser {
  u_id : string;
  circleCustomerId : option string
}.

(** [process.env], as far as the handlers read it. *)
Record Env := mkEnv {
  env_NODE_ENV : option string;
  RAMPNOW_WEBHOOK_SECRET : option string;
  CIRCLE_GATEWAY_ENABLED : bool
}.

(** [config.NODE_ENV = process.env.NODE_ENV || 'development']. *)
Definition config_NODE_ENV (e : Env) : string :=
  match truthyStr (env_NODE_ENV e) with
  | Some s => s
  | None => "development"
  end.

(** The [breakdown] of the answer of [createTransfer]: [sendAmount] and
    [totalDeducted] are the values [amount] and [amount + transferFee] as
    the handler holds them. *)
Record Breakdown := mkBreakdown {
  sendAmount : Numeric;
  transferFee : float;
  totalDeducted : Numeric;
  b_exchangeRate : float;
  recipientReceives : float
}.

Record Response := mkResponse {
  statusCode : nat;
  success : bool;
  breakdown : option Breakdown
}.

Definition reply (code : nat) (ok : bool) : Response := mkResponse code ok None.

(** ** Store primitives *)

Module Prisma.

(** [prisma.wallet.update({ where: { id }, data })]. *)
Definition updateWallet (id : string) (f : Wallet -> Wallet) (l : list Wallet)
  : list Wallet :=
  map (fun w => if String.eqb (w_id w) id then f w else w) l.

Definition findUniqueWallet (id : string) (l : list Wallet) : option Wallet :=
  find (fun w => String.eqb (w_id w) id) l.

(** [prisma.wallet.findFirst({ where: { userId, currency, isActive: true } })]. *)
Definition findActiveWallet (userId currency : string) (l : list Wallet)
  : option Wallet :=
  find (fun w => String.eqb (w_userId w) userId
                 && String.eqb (w_currency w) currency
                 && isActive w) l.

Definition updateTransaction (id : string) (f : Transaction -> Transaction)
    (l : list Transaction) : list Transaction :=
  map (fun t => if String.eqb (t_id t) id then f t else t) l.

(** [prisma.transaction.findFirst({ where: { circleTransferId } })]. *)
Definition findByCircleTransferId (transferId : string) (l : list Transaction)
  : option Transaction :=
  find (fun t => optStrEqb (t_circleTransferId t) transferId) l.

(** [prisma.transaction.findFirst({ where: { id, userId } })]. *)
Definition findUserTransaction (id userId : string) (l : list Transaction)
  : option Transaction :=
  find (fun t => String.eqb (t_id t) id && String.eqb (t_userId t) userId) l.

Definition updateOnramp (id : string) (f : OnrampTransaction -> OnrampTransaction)
    (l : list OnrampTransaction) : list OnrampTransaction :=
  map (fun t => if String.eqb (o_id t) id then f t else t) l.

Definition findOnrampBySession (sessionId : string) (l : list OnrampTransaction)
  : option OnrampTransaction :=
  find (fun t => optStrEqb (o_circleTransferId t) sessionId) l.

(** A value given for a DECIMAL column, or as an [increment] or
    [decrement] of one: a number is taken as it is (the numbers of a JSON
    body are finite); a string has to be a decimal literal of a finite
    number, and any other string makes the call throw. *)
Definition decimal (a : Numeric) : option float :=
  match a with
  | Num x => Some x
  | Str s =>
      match Js.decimalLiteral s with
      | Some (x, "") => if is_finite x then Some x else None
      | _ => None
      end
  end.

(** Balance updates: [{ increment: x }] and [{ decrement: x }]. *)
Definition reserve (x : Money) (w : Wallet) : Wallet :=
  mkWallet (w_id w) (w_userId w) (w_currency w) (balance w)
           (availableBalance w - x) (reservedBalance w + x) (isActive w).

Definition settle (x : Money) (w : Wallet) : Wallet :=
  mkWallet (w_id w) (w_userId w) (w_currency w) (balance w - x)
           (availableBalance w) (reservedBalance w - x) (isActive w).

Definition release (x : Money) (w : Wallet) : Wallet :=
  mkWallet (w_id w) (w_userId w) (w_currency w) (balance w)
           (availableBalance w + x) (reservedBalance w - x) (isActive w).

Definition credit (x : Money) (w : Wallet) : Wallet :=
  mkWallet (w_id w) (w_userId w) (w_currency w) (balance w + x)
           (availableBalance w + x) (reservedBalance w) (isActive w).

Definition setWallets (s : Store) (l : list Wallet) : Store :=
  mkStore l (transactions s) (statusHistory s) (exchangeRates s)
          (onrampTransactions s) (onrampStatusHistory s).

Definition setTransactions (s : Store) (l : list Transaction) : Store :=
  mkStore (wallets s) l (statusHistory s) (exchangeRates s)
          (onrampTransactions s) (onrampStatusHistory s).

Definition setOnramp (s : Store) (l : list OnrampTransaction) : Store :=
  mkStore (wallets s) (transactions s) (statusHistory s) (exchangeRates s)
          l (onrampStatusHistory s).

(** [prisma.transactionStatusHistory.create]. *)
Definition addHistory (s : Store) (h : StatusHistory) : Store :=
  mkStore (wallets s) (transactions s) (statusHistory s ++ [h]) (exchangeRates s)
          (onrampTransactions s) (onrampStatusHistory s).

Definition addOnrampHistory (s : Store) (h : StatusHistory) : Store :=
  mkStore (wallets s) (transactions s) (statusHistory s) (exchangeRates s)
          (onrampTransactions s) (onrampStatusHistory s ++ [h]).

End Prisma.

(** ** ExchangeRateService *)

Module ExchangeRateService.

(** One hour, in milliseconds. *)
Definition CACHE_DURATION : Z := (60 * 60 * 1000)%Z.

(** The table of [fetchLatestRates('USD')]: units of each currency per
    USD; [None] when the request fails. *)
Definition Rates := list (string * float).

Fixpoint lookupRate (c : string) (r : Rates) : option float :=
  match r with
  | [] => None
  | (k, v) :: r' => if String.eqb k c then Some v else lookupRate c r'
  end.

Definition isFresh (now : Z) (fromC toC : string) (e : ExchangeRate) : bool :=
  String.eqb (fromCurrency e) fromC && String.eqb (toCurrency e) toC
  && (now - CACHE_DURATION <=? timestamp e)%Z.

(** [orderBy: { timestamp: 'desc' }] then the first row: the newest row,
    the earliest inserted among equally new ones. *)
Fixpoint newest (l : list ExchangeRate) : option ExchangeRate :=
  match l with
  | [] => None
  | e :: l' =>
      match newest l' with
      | Some e' => if (timestamp e <? timestamp e')%Z then Some e' else Some e
      | None => Some e
      end
  end.

Definition findCachedRate (now : Z) (fromC toC : string) (l : list ExchangeRate)
  : option ExchangeRate :=
  newest (filter (isFresh now fromC toC) l).

Definition getExchangeRate (s : Store) (now : Z) (api : option Rates)
    (fromC toC : string) : float :=
  if String.eqb fromC toC then 1
  else
    match findCachedRate now fromC toC (exchangeRates s) with
    | Some cachedRate => rate cachedRate
    | None =>
        match api with
        | Some rates =>
            match truthyNumOpt (lookupRate fromC rates),
                  truthyNumOpt (lookupRate toC rates) with
            | Some fromRate, Some toRate => toRate / fromRate
            | _, _ => 1
            end
        | None => 1
        end
    end.

(** [Object.keys(CURRENCY_INFO)]. *)
Definition getSupportedCurrencies : list string :=
  ["USD"; "EUR"; "GBP"; "JPY"; "CHF"; "CAD"; "AUD"; "CNY";
   "NGN"; "GHS"; "KES"; "ZAR"; "EGP"; "MAD"; "TND"; "ETB"; "UGX"; "TZS";
   "RWF"; "MZN"; "XOF"; "XAF"; "ZMW"; "BWP";
   "AED"; "SAR"; "INR"; "SGD"; "HKD"; "KRW"; "THB"; "PHP"; "IDR"; "MYR";
   "BRL"; "MXN"; "SEK"; "NOK"; "NZD"].

(** [supportedCurrencies.includes(currency)]. *)
Definition isSupported (c : string) : bool :=
  existsb (String.eqb c) getSupportedCurrencies.

Definition setExchangeRates (s : Store) (l : list ExchangeRate) : Store :=
  mkStore (wallets s) (transactions s) (statusHistory s) l
          (onrampTransactions s) (onrampStatusHistory s).

(** [cacheRates]: the rows of the base currency are deleted, then one row
    is created for every supported currency of the table, in the order of
    [Object.entries].  (The [catch] that swallows a failure of the store
    is not modelled.) *)
Definition cacheRates (now : Z) (baseCurrency : string) (rates : Rates)
    (s : Store) : Store :=
  let kept :=
    filter (fun e => negb (String.eqb (fromCurrency e) baseCurrency))
           (exchangeRates s) in
  let filteredRates := filter (fun cr => isSupported (fst cr)) rates in
  let rateRecords :=
    map (fun cr => mkExchangeRate baseCurrency (fst cr) (snd cr) now
                     "exchangerate-api") filteredRates in
  setExchangeRates s (kept ++ rateRecords).

(** [orderBy: { timestamp: 'desc' }], as a stable insertion sort. *)
Fixpoint insertByTimestampDesc (e : ExchangeRate) (l : list ExchangeRate)
  : list ExchangeRate :=
  match l with
  | [] => [e]
  | x :: l' =>
      if (timestamp x <=? timestamp e)%Z then e :: x :: l'
      else x :: insertByTimestampDesc e l'
  end.

Definition sortByTimestampDesc (l : list ExchangeRate) : list ExchangeRate :=
  fold_right insertByTimestampDesc [] l.

(** [rates[c] = v] on the table of an object: an existing key keeps its
    place and takes the new value, a new key goes last. *)
Fixpoint setRate (c : string) (v : float) (r : Rates) : Rates :=
  match r with
  | [] => [(c, v)]
  | (k, x) :: r' =>
      if String.eqb k c then (k, v) :: r' else (k, x) :: setRate c v r'
  end.

(** [getCachedRates]: the rows of the base currency written within the
    last hour, newest first, folded into an object; [None] without rows. *)
Definition getCachedRates (now : Z) (baseCurrency : string) (s : Store)
  : option Rates :=
  let cachedRates :=
    sortByTimestampDesc
      (filter (fun e => String.eqb (fromCurrency e) baseCurrency
                        && (now - CACHE_DURATION <=? timestamp e)%Z)
              (exchangeRates s)) in
  match cachedRates with
  | [] => None
  | _ =>
      Some (fold_left (fun rates row => setRate (toCurrency row) (rate row) rates)
                      cachedRates [])
  end.

Definition getFallbackRates : Rates :=
  [("USD", 1.0); ("NGN", 0.00067); ("GHS", 0.065); ("KES", 0.0064);
   ("ZAR", 0.054); ("EGP", 0.0324); ("GBP", 1.27); ("EUR", 1.09);
   ("CAD", 0.74); ("AUD", 0.66); ("JPY", 0.0067); ("CHF", 1.1);
   ("CNY", 0.137); ("INR", 0.012); ("BRL", 0.201); ("MXN", 0.058);
   ("SGD", 0.741); ("HKD", 0.128); ("NZD", 0.602); ("SEK", 0.092);
   ("NOK", 0.093); ("KRW", 0.00075); ("THB", 0.028); ("PHP", 0.0178);
   ("IDR", 0.0000647); ("MYR", 0.214); ("MAD", 0.0985); ("TND", 0.318);
   ("ETB", 0.0178); ("UGX", 0.000267); ("TZS", 0.000398); ("XOF", 0.00162);
   ("XAF", 0.00162); ("RWF", 0.000787); ("MZN", 0.0157); ("ZMW", 0.039);
   ("BWP", 0.074); ("AED", 0.272); ("SAR", 0.267)].

(** [getExchangeRates(baseCurrency)]; [api] is the answer of
    [fetchLatestRates(baseCurrency)]. *)
Definition getExchangeRates (now : Z) (api : option Rates) (baseCurrency : string)
    (s : Store) : Store * Rates :=
  match getCachedRates now baseCurrency s with
  | Some cachedRates => (s, cachedRates)
  | None =>
      match api with
      | Some freshRates => (cacheRates now baseCurrency freshRates s, freshRates)
      | None => (s, getFallbackRates)
      end
  end.

(** [updateExchangeRates]. *)
Definition updateExchangeRates (now : Z) (api : option Rates) (s : Store)
  : Store * bool :=
  match api with
  | Some rates => (cacheRates now "USD" rates s, true)
  | None => (s, false)
  end.

End ExchangeRateService.

(** What the handlers read from outside the store during one request. *)

(** The member [id] of the body the gateway answers with: missing (or
    [null]), a string, or a value of another type, which the store refuses
    for the column [circleTransferId]. *)
Inductive GatewayId :=
| IdAbsent
| IdString (s : string)
| IdOther.

(** The outcome of the request to the Circle Gateway: it fails, or it is
    answered without a body ([response.data] is [null]), or with a body. *)
Inductive ApiResult :=
| ApiThrows
| ApiNoBody
| ApiBody (id : GatewayId).

Record World := mkWorld {
  now : Z;
  newId : string;
  uuid : string;
  quoteApi : option ExchangeRateService.Rates;
  gatewayApi : ApiResult
}.

(** ** CircleService *)

Module CircleService.

(** [createGatewayTransfer]: [response.data], or [ApiThrows] when the call
    throws.  Without CIRCLE_GATEWAY_ENABLED a mock transfer is returned
    and the call cannot fail. *)
Definition createGatewayTransfer (e : Env) (wd : World) : ApiResult :=
  if negb (CIRCLE_GATEWAY_ENABLED e)
  then ApiBody (IdString ("gateway_" ++ uuid wd)%string)
  else gatewayApi wd.

(** [return config.NODE_ENV === 'development' || true]. *)
Definition verifyWebhookSignature (e : Env) (payload : string)
    (signature : option string) : bool :=
  String.eqb (config_NODE_ENV e) "development" || true.

End CircleService.

(** ** RampnowService *)

Module RampnowService.
Section Hmac.

(** [crypto.createHmac('sha256', key).update(body, 'utf8').digest('hex')]. *)
Variable hmacSha256Hex : string -> string -> string.

Definition verifyWebhookSignature (e : Env) (rawBody : string)
    (signature : option string) : bool :=
  match truthyStr signature, truthyStr (RAMPNOW_WEBHOOK_SECRET e) with
  | Some sig, Some secret =>
      let expectedSignature := toLowerCase (hmacSha256Hex secret rawBody) in
      String.eqb (toLowerCase sig) (toLowerCase expectedSignature)
  | _, _ => optStrEqb (env_NODE_ENV e) "development"
  end.

End Hmac.
End RampnowService.
(** ** TransactionController *)

(** [req.body] of the transfer route, after [validate(schemas.createTransfer)]. *)
Record TransferBody := mkTransferBody {
  amount : Numeric;
  sourceWallet : string;
  recipientCurrency : option string;
  recipientName : string;
  description : option string
}.

(** The [data] of the answer of [calculateTransferFees]. *)
Record FeeQuote := mkFeeQuote {
  q_sendAmount : float;
  q_transferFee : float;
  q_totalCost : float;
  q_exchangeRate : float;
  q_recipientReceives : float;
  q_feePercentage : float
}.

Module TransactionController.

Definition feePercentage : float := 0.015.

(** [sourceWallet === recipientCurrency ? amount : amount * exchangeRate]. *)
Definition recipientAmount (sourceWallet recipientCurrency : string)
    (amount : Numeric) (exchangeRate : float) : Numeric :=
  if String.eqb sourceWallet recipientCurrency then amount
  else Num (toNum amount * exchangeRate).

(** The update of the transaction after the gateway call: an [id] that is
    [undefined] leaves the column. *)
Definition setCircle (id : option string) (t : Transaction) : Transaction :=
  mkTransaction (t_id t) (t_userId t) (t_walletId t) (t_type t) (t_status t)
    (t_amount t) (t_currency t) (t_fee t) (t_exchangeRate t)
    (t_recipientCurrency t)
    (match id with Some i => Some i | None => t_circleTransferId t end)
    (Some "GATEWAY_PROCESSING") (t_completedAt t) (t_description t).

(** The answer after the writes: [recipientAmount.toFixed(2)] throws when
    [recipientAmount] is a string, and the [catch] answers 500. *)
Definition respond (amount : Numeric) (transferFee : float)
    (totalDeduction : Numeric) (exchangeRate : float) (recipientAmount : Numeric)
  : Response :=
  match recipientAmount with
  | Num r =>
      mkResponse 201 true
        (Some (mkBreakdown amount transferFee totalDeduction exchangeRate
                 (Js.toFixed 2 r)))
  | Str _ => reply 500 false
  end.

Definition createTransfer (e : Env) (wd : World) (s : Store)
    (user : option User) (body : TransferBody) : Store * Response :=
  match user with
  | None => (s, reply 401 false)
  | Some u =>
      let amount := amount body in
      let sourceWallet := sourceWallet body in
      let recipientCurrency :=
        match recipientCurrency body with Some c => c | None => "USD" end in
      match Prisma.findActiveWallet (u_id u) sourceWallet (wallets s) with
      | None => (s, reply 404 false)
      | Some wallet =>
          let transferFee := toNum amount * feePercentage in
          let totalDeduction := plus amount transferFee in
          if availableBalance wallet <? toNum totalDeduction
          then (s, reply 400 false)
          else
            let exchangeRate :=
              ExchangeRateService.getExchangeRate s (now wd) (quoteApi wd)
                sourceWallet recipientCurrency in
            let recipientAmount :=
              recipientAmount sourceWallet recipientCurrency amount exchangeRate in
            match Prisma.decimal amount with
            | None => (s, reply 500 false)
            | Some stored =>
                let transaction :=
                  mkTransaction (newId wd) (u_id u) (w_id wallet) "TRANSFER_SEND"
                    PENDING stored sourceWallet transferFee (Some exchangeRate)
                    (Some recipientCurrency) None None None
                    (Some (match truthyStr (description body) with
                           | Some d => d
                           | None => "Transfer to " ++ recipientName body
                           end)%string) in
                let s1 := Prisma.setTransactions s (transactions s ++ [transaction]) in
                match Prisma.decimal totalDeduction with
                | None => (s1, reply 500 false)
                | Some debit =>
                    let s2 := Prisma.setWallets s1
                                (Prisma.updateWallet (w_id wallet)
                                   (Prisma.reserve debit) (wallets s1)) in
                    let s3 := Prisma.addHistory s2
                                (mkStatusHistory (t_id transaction) PENDING
                                   "Transfer initiated - validating recipient details") in
                    let response :=
                      respond amount transferFee totalDeduction exchangeRate
                        recipientAmount in
                    let processing (gatewayTransferId : option string) :=
                      let s4 := Prisma.setTransactions s3
                                  (Prisma.updateTransaction (t_id transaction)
                                     (setCircle gatewayTransferId) (transactions s3)) in
                      let s5 := Prisma.addHistory s4
                                  (mkStatusHistory (t_id transaction) PROCESSING
                                     "Processing instant settlement") in
                      (s5, response) in
                    match truthyStr (circleCustomerId u) with
                    | Some _ =>
                        match CircleService.createGatewayTransfer e wd with
                        | ApiThrows => (s3, reply 500 false)
                        | ApiNoBody => (s3, reply 500 false)
                        | ApiBody IdOther => (s3, reply 500 false)
                        | ApiBody (IdString id) => processing (Some id)
                        | ApiBody IdAbsent => processing None
                        end
                    | None => (s3, response)
                    end
                end
            end
      end
  end.

Definition setStatus (st : Status) (completedAt : option Z) (t : Transaction)
  : Transaction :=
  mkTransaction (t_id t) (t_userId t) (t_walletId t) (t_type t) st
    (t_amount t) (t_currency t) (t_fee t) (t_exchangeRate t)
    (t_recipientCurrency t) (t_circleTransferId t) (t_circleStatus t)
    (match completedAt with Some d => Some d | None => t_completedAt t end)
    (t_description t).

(** [updateTransactionStatus]; the route validates nothing, and [status]
    is [None] when the body has no string there: [status.toUpperCase()]
    then throws before the first write. *)
Definition updateTransactionStatus (wd : World) (s : Store)
    (user : option User) (id : string) (status : option string)
    (message : option string) : Store * Response :=
  match user with
  | None => (s, reply 401 false)
  | Some u =>
      match Prisma.findUserTransaction id (u_id u) (transactions s) with
      | None => (s, reply 404 false)
      | Some transaction =>
          match status with
          | None => (s, reply 500 false)
          | Some status =>
              let completed := String.eqb (toUpperCase status) "COMPLETED" in
              let s1 := Prisma.setTransactions s
                          (Prisma.updateTransaction id
                             (setStatus (toUpperCase status)
                                (if completed then Some (now wd) else None))
                             (transactions s)) in
              let s2 := Prisma.addHistory s1
                          (mkStatusHistory (t_id transaction) (toUpperCase status)
                             (match truthyStr message with
                              | Some m => m
                              | None => "Transaction " ++ toLowerCase status
                              end)%string) in
              if completed then
                match Prisma.findUniqueWallet (t_walletId transaction) (wallets s2) with
                | Some wallet =>
                    let totalDeduction := t_amount transaction + t_fee transaction in
                    (Prisma.setWallets s2
                       (Prisma.updateWallet (w_id wallet)
                          (Prisma.settle totalDeduction) (wallets s2)),
                     reply 200 true)
                | None => (s2, reply 200 true)
                end
              else (s2, reply 200 true)
          end
      end
  end.

(** [calculateTransferFees]: [amount], [fromCurrency] and [toCurrency] are
    the strings of the query, [None] when missing; the status code and
    the [data] of the answer. *)
Definition calculateTransferFees (s : Store) (now : Z)
    (api : option ExchangeRateService.Rates) (amount : option string)
    (fromCurrency toCurrency : option string) : nat * option FeeQuote :=
  match truthyStr amount, truthyStr fromCurrency with
  | Some amount, Some fromCurrency =>
      let toCurrency := match toCurrency with Some c => c | None => "USD" end in
      let sendAmount := Js.parseFloat amount in
      let transferFee := sendAmount * feePercentage in
      let totalCost := sendAmount + transferFee in
      let exchangeRate :=
        ExchangeRateService.getExchangeRate s now api fromCurrency toCurrency in
      let recipientAmount :=
        if String.eqb fromCurrency toCurrency then sendAmount
        else sendAmount * exchangeRate in
      (200%nat,
       Some (mkFeeQuote sendAmount (Js.toFixed 2 transferFee)
               (Js.toFixed 2 totalCost) exchangeRate (Js.toFixed 2 recipientAmount)
               (feePercentage * 100)))
  | _, _ => (400%nat, None)
  end.

End TransactionController.

(** ** WalletController *)

Module WalletController.

(** [addFunds]; [amount] is the number of the body, [None] when it is
    missing. *)
Definition addFunds (wd : World) (s : Store) (user : option User)
    (currency : option string) (amount : option float) : Store * Response :=
  match user with
  | None => (s, reply 401 false)
  | Some u =>
      match truthyStr currency, truthyNumOpt amount with
      | Some currency, Some amount =>
          if amount <=? 0 then (s, reply 400 false)
          else
            match Prisma.findActiveWallet (u_id u) currency (wallets s) with
            | None => (s, reply 404 false)
            | Some wallet =>
                let s1 := Prisma.setWallets s
                            (Prisma.updateWallet (w_id wallet)
                               (Prisma.credit amount) (wallets s)) in
                let s2 := Prisma.setTransactions s1
                            (transactions s1 ++
                             [mkTransaction (newId wd) (u_id u) (w_id wallet)
                                "DEPOSIT" COMPLETED amount currency 0 None None
                                None None None (Some "Test deposit")]) in
                (s2, reply 200 true)
            end
      | _, _ => (s, reply 400 false)
      end
  end.

(** [addCurrencyWallet]; the route validates [currency] against the
    supported codes.  The new row takes the defaults of the schema
    ([isActive] true). *)
Definition addCurrencyWallet (wd : World) (s : Store) (user : option User)
    (currency : string) : Store * Response :=
  match user with
  | None => (s, reply 401 false)
  | Some u =>
      match find (fun w => String.eqb (w_userId w) (u_id u)
                           && String.eqb (w_currency w) currency) (wallets s) with
      | Some existingWallet => (s, reply 409 false)
      | None =>
          (Prisma.setWallets s
             (wallets s ++ [mkWallet (newId wd) (u_id u) currency 0 0 0 true]),
           reply 201 true)
      end
  end.

End WalletController.

(** ** WebhookController (Circle) *)

Record CircleEvent := mkCircleEvent {
  ev_type : string;
  ev_id : option string;
  ev_dataId : option string;
  ev_errorMessage : option string
}.

Module WebhookController.

Definition setSettled (st : Status) (completedAt : option Z) (t : Transaction)
  : Transaction :=
  mkTransaction (t_id t) (t_userId t) (t_walletId t) (t_type t) st
    (t_amount t) (t_currency t) (t_fee t) (t_exchangeRate t)
    (t_recipientCurrency t) (t_circleTransferId t) (Some st)
    (match completedAt with Some d => Some d | None => t_completedAt t end)
    (t_description t).

(** [handleTransactionCreated] and [handleTransactionConfirmed] differ
    in the message of the history row only. *)
Definition handleProcessing (message : string) (s : Store) (event : CircleEvent)
  : Store :=
  match truthyStr (ev_dataId event) with
  | None => s
  | Some transferId =>
      match Prisma.findByCircleTransferId transferId (transactions s) with
      | Some transaction =>
          Prisma.addHistory s
            (mkStatusHistory (t_id transaction) PROCESSING message)
      | None => s
      end
  end.

Definition handleTransactionCreated : Store -> CircleEvent -> Store :=
  handleProcessing "Circle Gateway transfer initiated".

Definition handleTransactionConfirmed : Store -> CircleEvent -> Store :=
  handleProcessing "Transaction confirmed on blockchain".

Definition handleTransactionCompleted (wd : World) (s : Store)
    (event : CircleEvent) : Store :=
  match truthyStr (ev_dataId event) with
  | None => s
  | Some transferId =>
      match Prisma.findByCircleTransferId transferId (transactions s) with
      | Some transaction =>
          let s1 := Prisma.setTransactions s
                      (Prisma.updateTransaction (t_id transaction)
                         (setSettled COMPLETED (Some (now wd))) (transactions s)) in
          let s2 := Prisma.addHistory s1
                      (mkStatusHistory (t_id transaction) COMPLETED
                         "Transfer completed successfully") in
          match Prisma.findUniqueWallet (t_walletId transaction) (wallets s2) with
          | Some wallet =>
              let totalDeduction := t_amount transaction + t_fee transaction in
              Prisma.setWallets s2
                (Prisma.updateWallet (w_id wallet)
                   (Prisma.settle totalDeduction) (wallets s2))
          | None => s2
          end
      | None => s
      end
  end.

Definition handleTransactionFailed (s : Store) (event : CircleEvent) : Store :=
  match truthyStr (ev_dataId event) with
  | None => s
  | Some transferId =>
      match Prisma.findByCircleTransferId transferId (transactions s) with
      | Some transaction =>
          let s1 := Prisma.setTransactions s
                      (Prisma.updateTransaction (t_id transaction)
                         (setSettled FAILED None) (transactions s)) in
          let s2 := Prisma.addHistory s1
                      (mkStatusHistory (t_id transaction) FAILED
                         ("Transfer failed: " ++
                          match truthyStr (ev_errorMessage event) with
                          | Some m => m
                          | None => "Unknown error"
                          end)%string) in
          match Prisma.findUniqueWallet (t_walletId transaction) (wallets s2) with
          | Some wallet =>
              let totalDeduction := t_amount transaction + t_fee transaction in
              Prisma.setWallets s2
                (Prisma.updateWallet (w_id wallet)
                   (Prisma.release totalDeduction) (wallets s2))
          | None => s2
          end
      | None => s
      end
  end.

(** [handleWalletCreated] and [handleUserCreated] only log. *)
Definition handleWalletCreated (s : Store) (event : CircleEvent) : Store := s.
Definition handleUserCreated (s : Store) (event : CircleEvent) : Store := s.

Definition isOneOf (t a b : string) : bool := String.eqb t a || String.eqb t b.

(** The [switch (event.type)] of [handleCircleWebhook]. *)
Definition dispatch (wd : World) (s : Store) (event : CircleEvent) : Store :=
  let t := ev_type event in
  if isOneOf t "transactions.created" "transaction.created"
  then handleTransactionCreated s event
  else if isOneOf t "transactions.confirmed" "transaction.confirmed"
  then handleTransactionConfirmed s event
  else if isOneOf t "transactions.completed" "transaction.completed"
  then handleTransactionCompleted wd s event
  else if isOneOf t "transactions.failed" "transaction.failed"
  then handleTransactionFailed s event
  else if isOneOf t "wallets.created" "wallet.created"
  then handleWalletCreated s event
  else if isOneOf t "users.created" "user.created"
  then handleUserCreated s event
  else s.

(** [signature] is the header [circle-signature], [payload] is
    [JSON.stringify(req.body)], [event] is [req.body]. *)
Definition handleCircleWebhook (e : Env) (wd : World) (s : Store)
    (signature : option string) (payload : string) (event : CircleEvent)
  : Store * Response :=
  if negb (CircleService.verifyWebhookSignature e payload signature)
  then (s, reply 401 false)
  else (dispatch wd s event, reply 200 true).

End WebhookController.

(** ** RampnowWebhookController *)

(** [event.data || event], as far as the handler reads it. *)
Record RampnowEvent := mkRampnowEvent {
  r_type : option string;
  r_id : option string;
  r_sessionId : option string;
  r_status : option string;
  r_cryptoAmount : option float;
  r_amount : option float
}.

Record RampnowRequest := mkRampnowRequest {
  x_rampnow_signature : option string;
  x_signature : option string;
  rawBody : string;
  body : RampnowEvent
}.

Module RampnowWebhookController.
Section Handle.

Variable hmacSha256Hex : string -> string -> string.

(** Whether [JSON.parse] accepts a string; it throws otherwise. *)
Variable jsonParses : string -> bool.

Definition setCircleStatus (st : string) (t : OnrampTransaction)
  : OnrampTransaction :=
  mkOnrampTransaction (o_id t) (o_userId t) (o_walletId t) (o_status t)
    (o_usdcAmount t) (o_circleTransferId t) (Some st) (o_completedAt t)
    (o_description t).

Definition setCompleted (at_ : Z) (usdc : Money) (t : OnrampTransaction)
  : OnrampTransaction :=
  mkOnrampTransaction (o_id t) (o_userId t) (o_walletId t) COMPLETED
    usdc (o_circleTransferId t) (o_circleStatus t) (Some at_)
    (o_description t).

Definition setFailed (t : OnrampTransaction) : OnrampTransaction :=
  mkOnrampTransaction (o_id t) (o_userId t) (o_walletId t) FAILED
    (o_usdcAmount t) (o_circleTransferId t) (o_circleStatus t)
    (o_completedAt t) (o_description t).

Definition historyStatus (status : string) : Status :=
  if String.eqb status "completed" then COMPLETED
  else if String.eqb status "failed" then FAILED
  else PROCESSING.

Definition handle (e : Env) (wd : World) (s : Store) (req : RampnowRequest)
  : Store * Response :=
  let signature := orStr (x_rampnow_signature req) (x_signature req) in
  if negb (RampnowService.verifyWebhookSignature hmacSha256Hex e
             (rawBody req) signature)
  then (s, reply 401 false)
  else
    let data := body req in
    match truthyStr (orStr (r_id data) (r_sessionId data)) with
    | None => (s, reply 400 false)
    | Some sessionId =>
        match Prisma.findOnrampBySession sessionId (onrampTransactions s) with
        | None => (s, reply 200 true)
        | Some tx =>
            match truthyStr (r_status data) with
            | None => (s, reply 200 true)
            | Some status =>
                let s1 := Prisma.setOnramp s
                            (Prisma.updateOnramp (o_id tx)
                               (setCircleStatus status) (onrampTransactions s)) in
                let s2 := Prisma.addOnrampHistory s1
                            (mkStatusHistory (o_id tx) (historyStatus status)
                               ("Rampnow status: " ++ status)%string) in
                if String.eqb status "completed" then
                  let targetWallet :=
                    Prisma.findUniqueWallet (o_walletId tx) (wallets s2) in
                  let parsed :=
                    match truthyStr (o_description tx) with
                    | Some d => jsonParses d
                    | None => true
                    end in
                  if negb parsed then (s2, reply 500 false)
                  else
                    match targetWallet with
                    | None => (s2, reply 200 true)
                    | Some targetWallet =>
                        let usdcAmountReceived :=
                          match truthyNumOpt (r_cryptoAmount data),
                                truthyNumOpt (r_amount data) with
                          | Some x, _ => x
                          | None, Some x => x
                          | None, None => o_usdcAmount tx
                          end in
                        let credited :=
                          if String.eqb (w_currency targetWallet) "USDC"
                          then usdcAmountReceived
                          else usdcAmountReceived *
                               ExchangeRateService.getExchangeRate s2 (now wd)
                                 (quoteApi wd) "USDC" (w_currency targetWallet) in
                        let s3 := Prisma.setWallets s2
                                    (Prisma.updateWallet (w_id targetWallet)
                                       (Prisma.credit credited) (wallets s2)) in
                        let s4 := Prisma.setOnramp s3
                                    (Prisma.updateOnramp (o_id tx)
                                       (setCompleted (now wd) usdcAmountReceived)
                                       (onrampTransactions s3)) in
                        (s4, reply 200 true)
                    end
                else if String.eqb status "failed" then
                  (Prisma.setOnramp s2
                     (Prisma.updateOnramp (o_id tx) setFailed
                        (onrampTransactions s2)),
                   reply 200 true)
                else (s2, reply 200 true)
            end
        end
    end.

End Handle.
End RampnowWebhookController.

(** ** The core operations as requests *)

Inductive Request :=
| CreateTransfer (user : option User) (body : TransferBody)
| UpdateTransactionStatus (user : option User) (id : string)
    (status message : option string)
| AddFunds (user : option User) (currency : option string) (amount : option float)
| CircleWebhook (signature : option string) (payload : string)
    (event : CircleEvent).

Definition serve (e : Env) (wd : World) (rq : Request) (s : Store)
  : Store * Response :=
  match rq with
  | CreateTransfer user body => TransactionController.createTransfer e wd s user body
  | UpdateTransactionStatus user id status message =>
      TransactionController.updateTransactionStatus wd s user id status message
  | AddFunds user currency amount => WalletController.addFunds wd s user currency amount
  | CircleWebhook signature payload event =>
      WebhookController.handleCircleWebhook e wd s signature payload event
  end.

(** The store after a sequence of requests, served one after the other. *)
Definition run (e : Env) (rqs : list (World * Request)) (s : Store) : Store :=
  fold_left (fun s rq => fst (serve e (fst rq) (snd rq) s)) rqs s.

(** ** Ledger predicates *)

(** [0 <= x]; it fails for [NaN]. *)
Definition nonNegative (x : float) : Prop := (0 <=? x) = true.

(** [balance === availableBalance + reservedBalance], the sum as
    JavaScript computes it. *)
Definition walletBalanced (w : Wallet) : Prop :=
  (balance w =? availableBalance w + reservedBalance w) = true.

Definition ledgerBalanced (s : Store) : Prop := Forall walletBalanced (wallets s).

Definition walletNonNegative (w : Wallet) : Prop :=
  nonNegative (availableBalance w) /\ nonNegative (reservedBalance w).

Definition ledgerNonNegative (s : Store) : Prop :=
  Forall walletNonNegative (wallets s).

(** The primary key of the wallets table. *)
Definition walletIdsUnique (s : Store) : Prop := NoDup (map w_id (wallets s)).

(** Executable counterparts, for concrete stores. *)
Definition hasBalances (s : Store) (id : string) (b a r : float) : bool :=
  match Prisma.findUniqueWallet id (wallets s) with
  | Some w => (balance w =? b) && (availableBalance w =? a)
              && (reservedBalance w =? r)
  | None => false
  end.

Definition statusOf (s : Store) (id : string) : option Status :=
  option_map t_status (find (fun t => String.eqb (t_id t) id) (transactions s)).


Definition settledBy (x : float) (w w' : Wallet) : Prop :=
  balance w' = balance w - x /\
  availableBalance w' = availableBalance w /\
  reservedBalance w' = reservedBalance w - x.

Definition releasedBy (x : float) (w w' : Wallet) : Prop :=
  balance w' = balance w /\
  availableBalance w' = availableBalance w + x /\
  reservedBalance w' = reservedBalance w - x.

Definition creditedBy (x : float) (w w' : Wallet) : Prop :=
  balance w' = balance w + x /\
  availableBalance w' = availableBalance w + x /\
  reservedBalance w' = reservedBalance w.

(** One wallet row before and after a request: it is left as it was, or
    one of the four balance updates of the handlers was applied to it, each
    with a single operand [x]. *)
Inductive pairedUpdate (w : Wallet) : Wallet -> Prop :=
| Untouched : pairedUpdate w w
| Reserved (x : float) : pairedUpdate w (Prisma.reserve x w)
| Settled (x : float) : pairedUpdate w (Prisma.settle x w)
| Released (x : float) : pairedUpdate w (Prisma.release x w)
| Credited (x : float) : pairedUpdate w (Prisma.credit x w).

(** ** A concrete ledger *)

Module Scenario.

Definition production : Env := mkEnv (Some "production") (Some "whsec") true.

Definition alice : User := mkUser "u1" (Some "cus_1").

Definition usd : Wallet := mkWallet "w1" "u1" "USD" 100 100 0 true.

Definition s0 : Store := mkStore [usd] [] [] [] [] [].

Definition quotes : ExchangeRateService.Rates :=
  [("USD", 1); ("NGN", 100000 / 67); ("EUR", 0.92)].

Definition world (ok : bool) : World :=
  mkWorld 1700000000000 "tx1" "0000" (Some quotes)
          (if ok then ApiBody (IdString "gw1") else ApiThrows).

Definition send50 : TransferBody :=
  mkTransferBody (Num 50) "USD" (Some "EUR") "Bob" None.

Definition completedEvent : CircleEvent :=
  mkCircleEvent "transaction.completed" (Some "evt1") (Some "gw1") None.

Definition failedEvent : CircleEvent :=
  mkCircleEvent "transaction.failed" (Some "evt2") (Some "gw1") (Some "declined").

(** The transfer of 50 USD is reserved and handed to the gateway. *)
Definition sReserved : Store :=
  fst (TransactionController.createTransfer production (world true) s0
         (Some alice) send50).

(** The provider reports completion. *)
Definition sCompleted : Store :=
  fst (WebhookController.handleCircleWebhook production (world true) sReserved
         (Some "sig") "{}" completedEvent).

(** The gateway call of the same transfer throws instead. *)
Definition sGatewayDown : Store * Response :=
  TransactionController.createTransfer production (world false) s0
    (Some alice) send50.

(** A run from the wallet as [addCurrencyWallet] creates it: a deposit of
    100, the transfer of 50, its "completed" event, and the same event
    once more. *)
Definition sFresh : Store := mkStore [mkWallet "w1" "u1" "USD" 0 0 0 true] [] [] [] [] [].

Definition duplicateDelivery : list (World * Request) :=
  [(mkWorld 1699999000000 "dep1" "0000" None ApiThrows,
    AddFunds (Some alice) (Some "USD") (Some 100));
   (world true, CreateTransfer (Some alice) send50);
   (world true, CircleWebhook (Some "sig") "{}" completedEvent);
   (world true, CircleWebhook (Some "sig") "{}" completedEvent)].

(** The rows of the completed transfer and of its wallet. *)
Definition txCompleted : Transaction :=
  mkTransaction "tx1" "u1" "w1" "TRANSFER_SEND" COMPLETED 50 "USD" 0.75
    (Some 0.92) (Some "EUR") (Some "gw1") (Some COMPLETED)
    (Some 1700000000000%Z) (Some "Transfer to Bob").

Definition walletCompleted : Wallet :=
  mkWallet "w1" "u1" "USD" 49.25 49.25 0 true.

(** The provider delivers the same "completed" event a second time. *)
Definition sRedelivered : Store :=
  fst (WebhookController.handleCircleWebhook production (world true) sCompleted
         (Some "sig") "{}" completedEvent).

(** A "failed" event arrives for the transfer that is COMPLETED. *)
Definition sFailedAfterCompleted : Store :=
  fst (WebhookController.handleCircleWebhook production (world true) sCompleted
         (Some "sig") "{}" failedEvent).




Definition rich : Wallet := mkWallet "w1" "u1" "USD" 1000 1000 0 true.

Definition sRich : Store := mkStore [rich] [] [] [] [] [].

End Scenario.

(** ** Statements about the handlers *)


Definition depositOf (wd : World) (u : User) (w : Wallet) (c : string) (a : float)
  : Transaction :=
  mkTransaction (newId wd) (u_id u) (w_id w) "DEPOSIT" COMPLETED a c 0
    None None None None None (Some "Test deposit").

Definition completedType (t : string) : Prop :=
  t = "transactions.completed" \/ t = "transaction.completed".

Definition failedType (t : string) : Prop :=
  t = "transactions.failed" \/ t = "transaction.failed".

Definition processingType (t : string) : Prop :=
  t = "transactions.created" \/ t = "transaction.created" \/
  t = "transactions.confirmed" \/ t = "transaction.confirmed".

(** The balances of wallet [id] are the same in two stores. *)
Definition sameBalances (s s' : Store) (id : string) : Prop :=
  exists w w',
    Prisma.findUniqueWallet id (wallets s) = Some w /\
    Prisma.findUniqueWallet id (wallets s') = Some w' /\
    (balance w' =? balance w) = true /\
    (availableBalance w' =? availableBalance w) = true /\
    (reservedBalance w' =? reservedBalance w) = true.

(** What one application and two applications of a settlement leave in
    the wallet [id], starting from the row [w]. *)
Definition appliedTwice (rel : Wallet -> Wallet -> Prop) (id : string)
    (w : Wallet) (s1 s2 : Store) : Prop :=
  exists w1 w2,
    Prisma.findUniqueWallet id (wallets s1) = Some w1 /\ rel w w1 /\
    Prisma.findUniqueWallet id (wallets s2) = Some w2 /\ rel w1 w2.

Definition settlementsRepeat (e : Env) (wd : World) (s : Store) (u : User)
    (tid : string) (t : Transaction) (w : Wallet) : Prop :=
  let x := t_amount t + t_fee t in
  (forall signature payload event,
     completedType (ev_type event) -> ev_dataId event = Some tid ->
     let s1 := fst (WebhookController.handleCircleWebhook e wd s signature payload event) in
     let s2 := fst (WebhookController.handleCircleWebhook e wd s1 signature payload event) in
     appliedTwice (settledBy x) (t_walletId t) w s1 s2) /\
  (forall status message,
     toUpperCase status = COMPLETED ->
     let s1 := fst (TransactionController.updateTransactionStatus wd s (Some u)
                      (t_id t) (Some status) message) in
     let s2 := fst (TransactionController.updateTransactionStatus wd s1 (Some u)
                      (t_id t) (Some status) message) in
     appliedTwice (settledBy x) (t_walletId t) w s1 s2) /\
  (forall signature payload event,
     failedType (ev_type event) -> ev_dataId event = Some tid ->
     let s1 := fst (WebhookController.handleCircleWebhook e wd s signature payload event) in
     let s2 := fst (WebhookController.handleCircleWebhook e wd s1 signature payload event) in
     appliedTwice (releasedBy x) (t_walletId t) w s1 s2).

(** What the status-transition operations do to the stored transaction
    [t], found by the transfer id [tid] and by its own id for user [u]. *)
Definition statusOverwritten (e : Env) (wd : World) (s : Store) (u : User)
    (tid : string) (t : Transaction) : Prop :=
  (forall status message,
     let s1 := fst (TransactionController.updateTransactionStatus wd s (Some u)
                      (t_id t) (Some status) message) in
     exists t1,
       Prisma.findUserTransaction (t_id t) (u_id u) (transactions s1) = Some t1 /\
       t_status t1 = toUpperCase status) /\
  (forall signature payload event,
     completedType (ev_type event) -> ev_dataId event = Some tid ->
     let s1 := fst (WebhookController.handleCircleWebhook e wd s signature payload event) in
     exists t1,
       Prisma.findByCircleTransferId tid (transactions s1) = Some t1 /\
       t_status t1 = COMPLETED) /\
  (forall signature payload event,
     failedType (ev_type event) -> ev_dataId event = Some tid ->
     let s1 := fst (WebhookController.handleCircleWebhook e wd s signature payload event) in
     exists t1,
       Prisma.findByCircleTransferId tid (transactions s1) = Some t1 /\
       t_status t1 = FAILED) /\
  (forall signature payload event,
     processingType (ev_type event) ->
     let s1 := fst (WebhookController.handleCircleWebhook e wd s signature payload event) in
     transactions s1 = transactions s /\ wallets s1 = wallets s /\
     (ev_dataId event = Some tid ->
      exists message,
        statusHistory s1 =
        statusHistory s ++ [mkStatusHistory (t_id t) PROCESSING message])).



(** The cross rate of the specification, composed through USD: units of
    [toC] per unit of [fromC], from the quotes [rates] against USD. *)
Definition crossRate (rates : ExchangeRateService.Rates) (fromC toC : string)
  : option float :=
  match ExchangeRateService.lookupRate fromC rates,
        ExchangeRateService.lookupRate toC rates with
  | Some a, Some b => Some (b / a)
  | _, _ => None
  end.

(** No row of the cache quotes the pair within the last hour. *)
Definition noFreshQuote (s : Store) (now : Z) (fromC toC : string) : Prop :=
  forall row, In row (exchangeRates s) ->
              ExchangeRateService.isFresh now fromC toC row = false.

(** [row] is the newest quote of the pair within the last hour. *)
Definition newestFreshQuote (s : Store) (now : Z) (fromC toC : string)
    (row : ExchangeRate) : Prop :=
  In row (exchangeRates s) /\
  ExchangeRateService.isFresh now fromC toC row = true /\
  forall row', In row' (exchangeRates s) ->
               ExchangeRateService.isFresh now fromC toC row' = true ->
               (timestamp row' <= timestamp row)%Z.

Definition exchangeRateContract (s : Store) (now : Z)
    (api : option ExchangeRateService.Rates) (fromC toC : string) : Prop :=
  ExchangeRateService.getExchangeRate s now api fromC fromC = 1 /\
  (fromC <> toC ->
   (forall row, In row (exchangeRates s) ->
                ExchangeRateService.isFresh now fromC toC row = true ->
      exists newest,
        newestFreshQuote s now fromC toC newest /\
        ExchangeRateService.getExchangeRate s now api fromC toC = rate newest) /\
   (noFreshQuote s now fromC toC ->
    forall rates a b,
      api = Some rates ->
      ExchangeRateService.lookupRate fromC rates = Some a ->
      ExchangeRateService.lookupRate toC rates = Some b ->
      Js.truthy a = true -> Js.truthy b = true ->
      crossRate rates fromC toC = Some (b / a) /\
      ExchangeRateService.getExchangeRate s now api fromC toC = b / a)) /\
  TransactionController.recipientAmount "NGN" "USD" (Num 1000000) 0.00067
  = Num 670 /\
  Js.toFixed 2 670 = 670.

Module CachedQuote.

(** The cache holds a quote of NGN -> USD written ten minutes ago
    (by [getExchangeRates('NGN')]), the quote API answers with
    [Scenario.quotes]. *)
Definition nowMs : Z := 1700000000000.

Definition cached : ExchangeRate :=
  mkExchangeRate "NGN" "USD" 0.00065 (nowMs - 600000) "exchangerate-api".

Definition store : Store := mkStore [] [] [] [cached] [] [].

End CachedQuote.

Module Forged.

(** A stand-in for HMAC-SHA256, for concrete requests: the digest of
    the key "whsec" over the body "{}" is taken to be "a1b2"; any other
    digest is "00". *)
Definition hmac (key body : string) : string :=
  if String.eqb key "whsec" && String.eqb body "{}" then "a1b2" else "00".

Definition jsonParses (d : string) : bool := false.

(** A Rampnow "completed" event for a session the store does not know,
    carrying the right and a wrong signature. *)
Definition event : RampnowEvent :=
  mkRampnowEvent (Some "order.updated") (Some "sess_9") None (Some "completed")
    (Some 20) None.

(** The body [{ sessionId: "" }], signed. *)
Definition noSession : RampnowRequest :=
  mkRampnowRequest (Some "A1B2") None "{}"
    (mkRampnowEvent (Some "order.updated") None (Some "") (Some "completed")
       (Some 20) None).

Definition signed : RampnowRequest := mkRampnowRequest (Some "A1B2") None "{}" event.

Definition forged : RampnowRequest := mkRampnowRequest (Some "ffff") None "{}" event.

End Forged.


(** ** Statements about the exchange-rate cache *)

(** The table has no usable quote of [c]: the key is missing, or its
    value is falsy (zero or [NaN]). *)
Definition unquoted (c : string) (rates : ExchangeRateService.Rates) : Prop :=
  match ExchangeRateService.lookupRate c rates with
  | Some v => Js.truthy v = false
  | None => True
  end.

(** The row that [cacheRates] writes for one entry of the fetched table. *)
Definition cachedRow (now : Z) (base : string) (cr : string * float) : ExchangeRate :=
  mkExchangeRate base (fst cr) (snd cr) now "exchangerate-api".

(** ** Statements about quotes and transfers *)

(** The quote of [calculateTransferFees] and the breakdown answered by
    [createTransfer] describe the same transfer of the amount [a]. *)
Definition quoteHonoured (a : float) (quote : FeeQuote) (b : Breakdown) : Prop :=
  q_sendAmount quote = a /\ sendAmount b = Num a /\
  q_exchangeRate quote = b_exchangeRate b /\
  q_recipientReceives quote = recipientReceives b /\
  transferFee b = a * 0.015 /\
  q_transferFee quote = Js.toFixed 2 (transferFee b) /\
  totalDeducted b = Num (a + transferFee b) /\
  q_totalCost quote = Js.toFixed 2 (a + transferFee b).

(** The gateway does not hand back a transfer: its call throws, or is
    answered without a body, or with an [id] that is not a string. *)
Definition gatewayFails (e : Env) (wd : World) : Prop :=
  CircleService.createGatewayTransfer e wd = ApiThrows \/
  CircleService.createGatewayTransfer e wd = ApiNoBody \/
  CircleService.createGatewayTransfer e wd = ApiBody IdOther.

(** How [createTransfer] can answer. *)
Definition transferAnswer (e : Env) (wd : World) (s : Store) (user : option User)
    (body : TransferBody) : Prop :=
  let r := TransactionController.createTransfer e wd s user body in
  let code := statusCode (snd r) in
  (code = 401 \/ code = 404 \/ code = 400 \/ code = 201 \/ code = 500)%nat /\
  (code = 401%nat <-> user = None) /\
  (code = 401 \/ code = 404 \/ code = 400 -> fst r = s)%nat /\
  (success (snd r) = true <-> code = 201%nat) /\
  (forall a,
     amount body = Num a ->
     (code = 500%nat <->
      gatewayFails e wd /\
      exists u c w,
        user = Some u /\ truthyStr (circleCustomerId u) = Some c /\
        Prisma.findActiveWallet (u_id u) (sourceWallet body) (wallets s) = Some w /\
        (availableBalance w <? a + a * 0.015) = false)) /\
  (CIRCLE_GATEWAY_ENABLED e = false -> ~ gatewayFails e wd) /\
  (forall text,
     amount body = Str text ->
     sourceWallet body
     = match recipientCurrency body with Some c => c | None => "USD" end ->
     code <> 201%nat).

(** The transfer of the amount [a], created by [createTransfer] from
    wallet [w], was handed to the gateway under the transfer id [gid]: the
    amount came as a number, the user is a Circle customer, the wallet
    covers the debit, the gateway call returned [gid], and neither the new
    primary key nor [gid] is in use. *)
Definition handedOver (e : Env) (wd : World) (s : Store) (u : User)
    (body : TransferBody) (a : float) (w : Wallet) (gid : string) : Prop :=
  walletIdsUnique s /\
  amount body = Num a /\
  Prisma.findActiveWallet (u_id u) (sourceWallet body) (wallets s) = Some w /\
  (availableBalance w <? a + a * 0.015) = false /\
  (exists c, truthyStr (circleCustomerId u) = Some c) /\
  CircleService.createGatewayTransfer e wd = ApiBody (IdString gid) /\
  gid <> "" /\
  (forall t, In t (transactions s) ->
             t_id t <> newId wd /\ t_circleTransferId t <> Some gid).

(** ** What a request leaves in place *)

(** The columns of a wallet row that identify it. *)
Definition walletKey (w : Wallet) : string * string * string * bool :=
  (w_id w, w_userId w, w_currency w, isActive w).

(** The columns of a transaction row fixed at its creation. *)
Definition txCore (t : Transaction)
  : string * string * string * string * float * string * float :=
  (t_id t, t_userId t, t_walletId t, t_type t, t_amount t, t_currency t, t_fee t).

(** [s'] extends [s]: the same wallets in the same order, with the same
    identifying columns; the status history with rows added at its end;
    the transactions with their creation-time columns kept and rows added
    at the end; the exchange-rate cache and the onramp tables as they
    were. *)
Definition ledgerExtends (s s' : Store) : Prop :=
  map walletKey (wallets s') = map walletKey (wallets s) /\
  (exists added, statusHistory s' = statusHistory s ++ added) /\
  (exists added,
     map txCore (transactions s') = map txCore (transactions s) ++ added) /\
  exchangeRates s' = exchangeRates s /\
  onrampTransactions s' = onrampTransactions s /\
  onrampStatusHistory s' = onrampStatusHistory s.

(** ** Statements about ownership and wallets *)

(** At most one wallet per user and currency. *)
Definition walletPairsUnique (s : Store) : Prop :=
  NoDup (map (fun w => (w_userId w, w_currency w)) (wallets s)).

(** The user has a wallet row in the currency, active or not. *)
Definition hasWallet (s : Store) (u : User) (c : string) : Prop :=
  exists w, In w (wallets s) /\ w_userId w = u_id u /\ w_currency w = c.

Definition addCurrencyWalletOutcome (wd : World) (s : Store) (u : User)
    (c : string) : Prop :=
  let r := WalletController.addCurrencyWallet wd s (Some u) c in
  (hasWallet s u c -> r = (s, reply 409 false)) /\
  (~ hasWallet s u c ->
   statusCode (snd r) = 201%nat /\
   wallets (fst r) = wallets s ++ [mkWallet (newId wd) (u_id u) c 0 0 0 true] /\
   Prisma.findActiveWallet (u_id u) c (wallets (fst r))
   = Some (mkWallet (newId wd) (u_id u) c 0 0 0 true)) /\
  (walletPairsUnique s -> walletPairsUnique (fst r)) /\
  (ledgerBalanced s -> ledgerBalanced (fst r)) /\
  (ledgerNonNegative s -> ledgerNonNegative (fst r)).

Module TwoUsers.

(** Two users, each with a USD wallet. *)
Definition bobWallet : Wallet := mkWallet "w2" "u2" "USD" 30 30 0 true.

Definition store : Store := mkStore [Scenario.usd; bobWallet] [] [] [] [] [].

End TwoUsers.

(** ** Statements about the Rampnow webhook *)

(** The signature header of the request is the HMAC of its body under the
    configured secret, compared without regard to case. *)
Definition signatureMatches (hmac : string -> string -> string) (e : Env)
    (req : RampnowRequest) : Prop :=
  exists sig secret,
    truthyStr (orStr (x_rampnow_signature req) (x_signature req)) = Some sig /\
    truthyStr (RAMPNOW_WEBHOOK_SECRET e) = Some secret /\
    toLowerCase sig = toLowerCase (toLowerCase (hmac secret (rawBody req))).

(** A verified request that names the stored onramp transaction [tx] by
    its session id and reports the status [status]. *)
Definition reportsStatus (hmac : string -> string -> string) (e : Env)
    (s : Store) (req : RampnowRequest) (tx : OnrampTransaction)
    (status : string) : Prop :=
  RampnowService.verifyWebhookSignature hmac e (rawBody req)
    (orStr (x_rampnow_signature req) (x_signature req)) = true /\
  (exists sessionId,
     truthyStr (orStr (r_id (body req)) (r_sessionId (body req))) = Some sessionId /\
     Prisma.findOnrampBySession sessionId (onrampTransactions s) = Some tx) /\
  r_status (body req) = Some status.

(** The columns of an onramp transaction that the webhook never writes. *)
Definition onrampKey (t : OnrampTransaction)
  : string * string * string * option string * option string :=
  (o_id t, o_userId t, o_walletId t, o_circleTransferId t, o_description t).

Definition rampnowFrame (s s' : Store) : Prop :=
  transactions s' = transactions s /\
  statusHistory s' = statusHistory s /\
  exchangeRates s' = exchangeRates s /\
  map walletKey (wallets s') = map walletKey (wallets s) /\
  map onrampKey (onrampTransactions s') = map onrampKey (onrampTransactions s) /\
  exists added, onrampStatusHistory s' = onrampStatusHistory s ++ added.

(** What a verified "completed" event leaves when [JSON.parse] throws on
    the description of the transaction. *)
Definition onrampHalfWritten (s : Store) (tx : OnrampTransaction)
    (r : Store * Response) : Prop :=
  snd r = reply 500 false /\
  wallets (fst r) = wallets s /\
  onrampStatusHistory (fst r) =
    onrampStatusHistory s ++
    [mkStatusHistory (o_id tx) COMPLETED "Rampnow status: completed"] /\
  onrampTransactions (fst r) =
    Prisma.updateOnramp (o_id tx)
      (RampnowWebhookController.setCircleStatus "completed")
      (onrampTransactions s) /\
  forall t, o_status (RampnowWebhookController.setCircleStatus "completed" t)
            = o_status t.

Module Onramp.

(** An onramp transaction of 20 USDC for a EUR wallet, with the
    description the onramp controller writes, and the "completed" event of
    its session; [Forged.jsonParses], like [JSON.parse], rejects the
    description. *)
Definition eur : Wallet := mkWallet "w3" "u1" "EUR" 0 0 0 true.

Definition completed : RampnowRequest :=
  mkRampnowRequest (Some "a1b2") None "{}"
    (mkRampnowEvent (Some "order.updated") (Some "sess_1") None
       (Some "completed") (Some 19) None).

Definition described : OnrampTransaction :=
  mkOnrampTransaction "on1" "u1" "w3" PENDING 20 (Some "sess_1")
    (Some "pending") None (Some "Add funds: 20.20 USD -> 20 EUR").

Definition storeDescribed : Store := mkStore [eur] [] [] [] [described] [].

End Onramp.

(** ** Statements about runs and the status route *)


(** * Properties *)

(** ** Signs in binary64 arithmetic *)

(** The facts about IEEE 754 that the balance guards rest on, proved from
    the specification of the primitive operations ([SpecFloat]). *)



















(** ** Lookups after an update *)

Section Rows.
Context {A : Type}.

Lemma find_map_preserved (p : A -> bool) (g : A -> A) (l : list A) (x : A) :
  (forall y, p (g y) = p y) ->
  find p l = Some x -> find p (map g l) = Some (g x).
Proof.
  intros Hp. induction l as [|y l IH]; simpl; [discriminate|].
  rewrite Hp. destruct (p y); intros H.
  - now inversion H.
  - now apply IH.
Qed.

End Rows.


Lemma findUniqueWallet_update id f l w :
  (forall y, w_id (f y) = w_id y) ->
  Prisma.findUniqueWallet id l = Some w ->
  Prisma.findUniqueWallet id (Prisma.updateWallet (w_id w) f l) = Some (f w).
Proof.
  intros Hid Hfind. unfold Prisma.findUniqueWallet, Prisma.updateWallet.
  rewrite (find_map_preserved _ _ l w); [| |exact Hfind].
  - now rewrite String.eqb_refl.
  - intros y. destruct (String.eqb (w_id y) (w_id w)); [now rewrite Hid | reflexivity].
Qed.

Lemma findActiveWallet_update uid cur f l w :
  (forall y, w_id (f y) = w_id y /\ w_userId (f y) = w_userId y /\
             w_currency (f y) = w_currency y /\ isActive (f y) = isActive y) ->
  Prisma.findActiveWallet uid cur l = Some w ->
  Prisma.findActiveWallet uid cur (Prisma.updateWallet (w_id w) f l) = Some (f w).
Proof.
  intros Hf Hfind. unfold Prisma.findActiveWallet, Prisma.updateWallet.
  rewrite (find_map_preserved _ _ l w); [| |exact Hfind].
  - now rewrite String.eqb_refl.
  - intros y. destruct (String.eqb (w_id y) (w_id w)); [|reflexivity].
    destruct (Hf y) as (_ & -> & -> & ->). reflexivity.
Qed.

(** Case analysis on every [match] and [if] of a handler. *)
Ltac branches :=
  repeat match goal with
         | |- context [match ?x with _ => _ end] => destruct x eqn:?
         end.

(** ** The balance equation *)

Lemma updateWallet_paired id f l :
  (forall w, pairedUpdate w (f w)) ->
  Forall2 pairedUpdate l (Prisma.updateWallet id f l).
Proof.
  intros Hf. unfold Prisma.updateWallet.
  induction l as [|w l IH]; simpl; constructor; [|exact IH].
  destruct (String.eqb (w_id w) id); [apply Hf | constructor].
Qed.

Lemma paired_refl l : Forall2 pairedUpdate l l.
Proof. induction l; constructor; [constructor | assumption]. Qed.

Create HintDb ledger.

#[local] Hint Resolve updateWallet_paired paired_refl : ledger.
#[local] Hint Constructors pairedUpdate : ledger.







(** ** createTransfer *)







(** Scenarios 1 to 3 of the specification: 50 USD out of 100 with the fee
    of 1.5 percent, then its completion, or its failure instead. *)
Example createTransfer_scenario :
  hasBalances Scenario.sReserved "w1" 100 49.25 50.75 = true /\
  statusOf Scenario.sReserved "tx1" = Some PENDING.
Proof. split; vm_compute; reflexivity. Qed.

Example completion_scenario :
  hasBalances Scenario.sCompleted "w1" 49.25 49.25 0 = true /\
  statusOf Scenario.sCompleted "tx1" = Some COMPLETED.
Proof. split; vm_compute; reflexivity. Qed.

Example failure_scenario :
  let s := fst (WebhookController.handleCircleWebhook Scenario.production
                  (Scenario.world true) Scenario.sReserved None "{}"
                  Scenario.failedEvent) in
  hasBalances s "w1" 100 100 0 = true /\ statusOf s "tx1" = Some FAILED.
Proof. split; vm_compute; reflexivity. Qed.

(** ** addFunds *)

Lemma credit_creditedBy x w : creditedBy x w (Prisma.credit x w).
Proof. unfold creditedBy; simpl; intuition reflexivity. Qed.

Lemma credit_keys x y :
  w_id (Prisma.credit x y) = w_id y /\ w_userId (Prisma.credit x y) = w_userId y /\
  w_currency (Prisma.credit x y) = w_currency y /\
  isActive (Prisma.credit x y) = isActive y.
Proof. repeat split. Qed.

Lemma truthyStr_some c : c <> "" -> truthyStr (Some c) = Some c.
Proof. destruct c; [congruence | reflexivity]. Qed.

(** A positive number is truthy and not [<= 0]. *)
Lemma positive_truthy a :
  (0 <? a) = true -> Js.truthy a = true /\ (a <=? 0) = false.
Proof.
  unfold Js.truthy. rewrite ltb_spec, leb_spec, !eqb_spec.
  change (Prim2SF 0) with (S754_zero false).
  destruct (Prim2SF a) as [sa|[|]| |[|] ma ea];
    cbv [SFltb SFleb SFeqb SFcompare]; try discriminate; intros _.
  - split; reflexivity.
  - split; [|reflexivity].
    rewrite Z.compare_refl, Pos.compare_cont_refl. reflexivity.
Qed.

Lemma truthyNumOpt_pos a : (0 <? a) = true -> truthyNumOpt (Some a) = Some a.
Proof.
  intros H. unfold truthyNumOpt. now rewrite (proj1 (positive_truthy a H)).
Qed.

Lemma addFunds_invalid wd s u currency amount :
  truthyStr currency = None \/ amount = None \/
  (exists a, amount = Some a /\ ((a <=? 0) = true \/ Js.truthy a = false)) ->
  WalletController.addFunds wd s (Some u) currency amount = (s, reply 400 false).
Proof.
  unfold WalletController.addFunds.
  intros [H | [H | [a [H Ha]]]].
  - now rewrite H.
  - rewrite H. simpl. now destruct (truthyStr currency).
  - rewrite H. destruct (truthyStr currency); [|reflexivity].
    unfold truthyNumOpt. destruct (Js.truthy a); [|reflexivity].
    destruct Ha as [Ha|Ha]; [now rewrite Ha | discriminate].
Qed.

Lemma addFunds_valid wd s u c a w :
  c <> "" -> (0 <? a) = true ->
  Prisma.findActiveWallet (u_id u) c (wallets s) = Some w ->
  let r := WalletController.addFunds wd s (Some u) (Some c) (Some a) in
  snd r = reply 200 true /\
  (exists w',
     Prisma.findActiveWallet (u_id u) c (wallets (fst r)) = Some w' /\
     creditedBy a w w') /\
  wallets (fst r) = Prisma.updateWallet (w_id w) (Prisma.credit a) (wallets s) /\
  transactions (fst r) = transactions s ++ [depositOf wd u w c a] /\
  statusHistory (fst r) = statusHistory s.
Proof.
  intros Hc Ha Hw. unfold WalletController.addFunds.
  rewrite (truthyStr_some c Hc), (truthyNumOpt_pos a Ha), Hw.
  rewrite (proj2 (positive_truthy a Ha)). simpl. repeat split.
  exists (Prisma.credit a w). split; [|apply credit_creditedBy].
  apply findActiveWallet_update; [apply credit_keys | exact Hw].
Qed.

(** C10. [addFunds] answers 400 and leaves the store as it was when the
    currency is missing, or the amount is missing, zero, negative or
    [NaN]; for a positive amount and an active wallet of the user in that
    currency it adds the amount to [balance] and to [availableBalance],
    leaves [reservedBalance], and appends a COMPLETED DEPOSIT transaction
    with fee 0. *)
Theorem addFunds_validates_and_credits wd s u currency amount :
  (truthyStr currency = None \/ amount = None \/
   (exists a, amount = Some a /\ ((a <=? 0) = true \/ Js.truthy a = false)) ->
   WalletController.addFunds wd s (Some u) currency amount = (s, reply 400 false)) /\
  (forall c a w,
     currency = Some c -> c <> "" -> amount = Some a -> (0 <? a) = true ->
     Prisma.findActiveWallet (u_id u) c (wallets s) = Some w ->
     let r := WalletController.addFunds wd s (Some u) currency amount in
     snd r = reply 200 true /\
     (exists w',
        Prisma.findActiveWallet (u_id u) c (wallets (fst r)) = Some w' /\
        creditedBy a w w') /\
     wallets (fst r) = Prisma.updateWallet (w_id w) (Prisma.credit a) (wallets s) /\
     transactions (fst r) = transactions s ++ [depositOf wd u w c a] /\
     t_status (depositOf wd u w c a) = COMPLETED /\
     t_type (depositOf wd u w c a) = "DEPOSIT" /\
     t_fee (depositOf wd u w c a) = 0 /\
     t_amount (depositOf wd u w c a) = a).
Proof.
  split.
  - apply addFunds_invalid.
  - intros c a w -> Hc -> Ha Hw.
    destruct (addFunds_valid wd s u c a w Hc Ha Hw) as (H1 & H2 & H3 & H4 & _).
    cbv zeta. repeat split; assumption.
Qed.

Lemma addFunds_validates_and_credits_witness :
  WalletController.addFunds (Scenario.world true) Scenario.s0
    (Some Scenario.alice) (Some "USD") (Some (-5)) = (Scenario.s0, reply 400 false) /\
  hasBalances
    (fst (WalletController.addFunds (Scenario.world true) Scenario.s0
            (Some Scenario.alice) (Some "USD") (Some 25))) "w1" 125 125 0 = true.
Proof.
  split.
  - apply (proj1 (addFunds_validates_and_credits (Scenario.world true) Scenario.s0
                    Scenario.alice (Some "USD") (Some (-5)))).
    right. right. exists (-5). split; [reflexivity | left; reflexivity].
  - vm_compute. reflexivity.
Defined.

(** ** Settlement by webhook and by status update *)

Lemma circle_signature_always_accepted e payload signature :
  CircleService.verifyWebhookSignature e payload signature = true.
Proof. unfold CircleService.verifyWebhookSignature. apply orb_true_r. Qed.

Lemma handleCircleWebhook_dispatches e wd s signature payload event :
  WebhookController.handleCircleWebhook e wd s signature payload event =
  (WebhookController.dispatch wd s event, reply 200 true).
Proof.
  unfold WebhookController.handleCircleWebhook.
  now rewrite circle_signature_always_accepted.
Qed.

Lemma dispatch_completed wd s event :
  completedType (ev_type event) ->
  WebhookController.dispatch wd s event =
  WebhookController.handleTransactionCompleted wd s event.
Proof. intros [H|H]; unfold WebhookController.dispatch; now rewrite H. Qed.

Lemma dispatch_failed wd s event :
  failedType (ev_type event) ->
  WebhookController.dispatch wd s event =
  WebhookController.handleTransactionFailed s event.
Proof. intros [H|H]; unfold WebhookController.dispatch; now rewrite H. Qed.

Lemma findByCircleTransferId_update tid f l t :
  (forall y, t_circleTransferId (f y) = t_circleTransferId y) ->
  Prisma.findByCircleTransferId tid l = Some t ->
  Prisma.findByCircleTransferId tid (Prisma.updateTransaction (t_id t) f l)
  = Some (f t).
Proof.
  intros Hf Hfind. unfold Prisma.findByCircleTransferId, Prisma.updateTransaction.
  rewrite (find_map_preserved _ _ l t); [| |exact Hfind].
  - now rewrite String.eqb_refl.
  - intros y. destruct (String.eqb (t_id y) (t_id t)); [now rewrite Hf | reflexivity].
Qed.

Lemma findUserTransaction_update id uid f l t :
  (forall y, t_id (f y) = t_id y /\ t_userId (f y) = t_userId y) ->
  Prisma.findUserTransaction id uid l = Some t ->
  Prisma.findUserTransaction id uid (Prisma.updateTransaction id f l) = Some (f t).
Proof.
  intros Hf Hfind. unfold Prisma.findUserTransaction, Prisma.updateTransaction.
  pose proof (find_some _ _ Hfind) as [_ Ht].
  apply andb_prop in Ht. destruct Ht as [Ht _].
  rewrite (find_map_preserved _ _ l t); [| |exact Hfind].
  - now rewrite Ht.
  - intros y. destruct (String.eqb (t_id y) id) eqn:E; [|now rewrite E].
    destruct (Hf y) as [-> ->]. now rewrite E.
Qed.

Lemma findUniqueWallet_id id l w :
  Prisma.findUniqueWallet id l = Some w -> w_id w = id.
Proof.
  intros H. apply find_some in H. destruct H as [_ H]. now apply String.eqb_eq.
Qed.

Lemma settle_settledBy x w : settledBy x w (Prisma.settle x w).
Proof. unfold settledBy; simpl; intuition reflexivity. Qed.

Lemma release_releasedBy x w : releasedBy x w (Prisma.release x w).
Proof. unfold releasedBy; simpl; intuition reflexivity. Qed.

(** The store left by a "completed" event whose transfer id names the
    stored transaction [t], with wallet [w]. *)
Lemma handleTransactionCompleted_found wd s event tid t w :
  ev_dataId event = Some tid -> tid <> "" ->
  Prisma.findByCircleTransferId tid (transactions s) = Some t ->
  Prisma.findUniqueWallet (t_walletId t) (wallets s) = Some w ->
  WebhookController.handleTransactionCompleted wd s event =
  mkStore
    (Prisma.updateWallet (w_id w) (Prisma.settle (t_amount t + t_fee t)) (wallets s))
    (Prisma.updateTransaction (t_id t)
       (WebhookController.setSettled COMPLETED (Some (now wd))) (transactions s))
    (statusHistory s ++
     [mkStatusHistory (t_id t) COMPLETED "Transfer completed successfully"])
    (exchangeRates s) (onrampTransactions s) (onrampStatusHistory s).
Proof.
  intros Hid Hne Ht Hw. unfold WebhookController.handleTransactionCompleted.
  rewrite Hid, (truthyStr_some tid Hne), Ht. simpl. now rewrite Hw.
Qed.

Lemma handleTransactionFailed_found s event tid t w :
  ev_dataId event = Some tid -> tid <> "" ->
  Prisma.findByCircleTransferId tid (transactions s) = Some t ->
  Prisma.findUniqueWallet (t_walletId t) (wallets s) = Some w ->
  exists h,
    WebhookController.handleTransactionFailed s event =
    mkStore
      (Prisma.updateWallet (w_id w) (Prisma.release (t_amount t + t_fee t))
         (wallets s))
      (Prisma.updateTransaction (t_id t)
         (WebhookController.setSettled FAILED None) (transactions s))
      (statusHistory s ++ [h])
      (exchangeRates s) (onrampTransactions s) (onrampStatusHistory s)
    /\ h_transactionId h = t_id t /\ h_status h = FAILED.
Proof.
  intros Hid Hne Ht Hw. unfold WebhookController.handleTransactionFailed.
  rewrite Hid, (truthyStr_some tid Hne), Ht. simpl. rewrite Hw.
  eexists. split; [reflexivity | split; reflexivity].
Qed.

Lemma updateTransactionStatus_completed wd s u id status message t w :
  toUpperCase status = COMPLETED ->
  Prisma.findUserTransaction id (u_id u) (transactions s) = Some t ->
  Prisma.findUniqueWallet (t_walletId t) (wallets s) = Some w ->
  exists h,
    TransactionController.updateTransactionStatus wd s (Some u) id (Some status) message =
    (mkStore
       (Prisma.updateWallet (w_id w) (Prisma.settle (t_amount t + t_fee t))
          (wallets s))
       (Prisma.updateTransaction id
          (TransactionController.setStatus COMPLETED (Some (now wd)))
          (transactions s))
       (statusHistory s ++ [h])
       (exchangeRates s) (onrampTransactions s) (onrampStatusHistory s),
     reply 200 true)
    /\ h_transactionId h = t_id t /\ h_status h = COMPLETED.
Proof.
  intros Hst Ht Hw. unfold TransactionController.updateTransactionStatus.
  rewrite Ht, Hst. simpl. rewrite Hw.
  eexists. split; [reflexivity | split; reflexivity].
Qed.

Lemma completedWebhook_once e wd s signature payload event tid t w :
  completedType (ev_type event) ->
  ev_dataId event = Some tid -> tid <> "" ->
  Prisma.findByCircleTransferId tid (transactions s) = Some t ->
  Prisma.findUniqueWallet (t_walletId t) (wallets s) = Some w ->
  let s1 := fst (WebhookController.handleCircleWebhook e wd s signature payload event) in
  Prisma.findByCircleTransferId tid (transactions s1)
  = Some (WebhookController.setSettled COMPLETED (Some (now wd)) t) /\
  Prisma.findUniqueWallet (t_walletId t) (wallets s1)
  = Some (Prisma.settle (t_amount t + t_fee t) w).
Proof.
  intros Hty Hid Hne Ht Hw. cbv zeta.
  rewrite handleCircleWebhook_dispatches, (dispatch_completed _ _ _ Hty).
  rewrite (handleTransactionCompleted_found wd s event tid t w Hid Hne Ht Hw).
  simpl. split.
  - now apply findByCircleTransferId_update.
  - now apply findUniqueWallet_update.
Qed.

Lemma failedWebhook_once e wd s signature payload event tid t w :
  failedType (ev_type event) ->
  ev_dataId event = Some tid -> tid <> "" ->
  Prisma.findByCircleTransferId tid (transactions s) = Some t ->
  Prisma.findUniqueWallet (t_walletId t) (wallets s) = Some w ->
  let s1 := fst (WebhookController.handleCircleWebhook e wd s signature payload event) in
  Prisma.findByCircleTransferId tid (transactions s1)
  = Some (WebhookController.setSettled FAILED None t) /\
  Prisma.findUniqueWallet (t_walletId t) (wallets s1)
  = Some (Prisma.release (t_amount t + t_fee t) w).
Proof.
  intros Hty Hid Hne Ht Hw. cbv zeta.
  rewrite handleCircleWebhook_dispatches, (dispatch_failed _ _ _ Hty).
  destruct (handleTransactionFailed_found s event tid t w Hid Hne Ht Hw)
    as (h & -> & _).
  simpl. split.
  - now apply findByCircleTransferId_update.
  - now apply findUniqueWallet_update.
Qed.

Lemma statusUpdate_once wd s u id status message t w :
  toUpperCase status = COMPLETED ->
  Prisma.findUserTransaction id (u_id u) (transactions s) = Some t ->
  Prisma.findUniqueWallet (t_walletId t) (wallets s) = Some w ->
  let s1 := fst (TransactionController.updateTransactionStatus wd s (Some u) id
                   (Some status) message) in
  Prisma.findUserTransaction id (u_id u) (transactions s1)
  = Some (TransactionController.setStatus COMPLETED (Some (now wd)) t) /\
  Prisma.findUniqueWallet (t_walletId t) (wallets s1)
  = Some (Prisma.settle (t_amount t + t_fee t) w).
Proof.
  intros Hst Ht Hw. cbv zeta.
  destruct (updateTransactionStatus_completed wd s u id status message t w
              Hst Ht Hw) as (h & -> & _).
  simpl. split.
  - now apply findUserTransaction_update.
  - now apply findUniqueWallet_update.
Qed.

(** C2, as the code has it.  Completion is not idempotent: every
    application of a completion (a "completed" webhook, or a status update
    to COMPLETED) to a stored transaction, whatever its status and so also
    when it is COMPLETED already, takes [amount + fee] off the [balance] and
    the [reservedBalance] of its wallet again and leaves [availableBalance];
    every "failed" webhook, also for a FAILED transaction, adds
    [amount + fee] to [availableBalance] and takes it off [reservedBalance]
    again.  Two applications in a row move the amounts twice. *)
Theorem settlement_applies_every_time e wd s u tid t w :
  tid <> "" ->
  Prisma.findByCircleTransferId tid (transactions s) = Some t ->
  Prisma.findUserTransaction (t_id t) (u_id u) (transactions s) = Some t ->
  Prisma.findUniqueWallet (t_walletId t) (wallets s) = Some w ->
  settlementsRepeat e wd s u tid t w.
Proof.
  intros Hne Ht Hu Hw. unfold settlementsRepeat, appliedTwice. cbv zeta.
  split; [|split].
  - intros signature payload event Hty Hid.
    destruct (completedWebhook_once e wd s signature payload event tid t w
                Hty Hid Hne Ht Hw) as [Ht1 Hw1].
    destruct (completedWebhook_once e wd _ signature payload event tid _ _
                Hty Hid Hne Ht1 Hw1) as [_ Hw2].
    simpl in Hw2.
    eexists. eexists. split; [exact Hw1|]. split; [apply settle_settledBy|].
    split; [exact Hw2 | apply settle_settledBy].
  - intros status message Hst.
    destruct (statusUpdate_once wd s u (t_id t) status message t w Hst Hu Hw)
      as [Ht1 Hw1].
    destruct (statusUpdate_once wd _ u (t_id t) status message _ _ Hst Ht1 Hw1)
      as [_ Hw2].
    simpl in Hw2.
    eexists. eexists. split; [exact Hw1|]. split; [apply settle_settledBy|].
    split; [exact Hw2 | apply settle_settledBy].
  - intros signature payload event Hty Hid.
    destruct (failedWebhook_once e wd s signature payload event tid t w
                Hty Hid Hne Ht Hw) as [Ht1 Hw1].
    destruct (failedWebhook_once e wd _ signature payload event tid _ _
                Hty Hid Hne Ht1 Hw1) as [_ Hw2].
    simpl in Hw2.
    eexists. eexists. split; [exact Hw1|]. split; [apply release_releasedBy|].
    split; [exact Hw2 | apply release_releasedBy].
Qed.

Lemma settlement_applies_every_time_witness :
  "gw1" <> "" /\
  Prisma.findByCircleTransferId "gw1" (transactions Scenario.sCompleted)
  = Some Scenario.txCompleted /\
  t_status Scenario.txCompleted = COMPLETED /\
  Prisma.findUserTransaction (t_id Scenario.txCompleted) (u_id Scenario.alice)
    (transactions Scenario.sCompleted) = Some Scenario.txCompleted /\
  Prisma.findUniqueWallet (t_walletId Scenario.txCompleted)
    (wallets Scenario.sCompleted) = Some Scenario.walletCompleted /\
  settlementsRepeat Scenario.production (Scenario.world true) Scenario.sCompleted
    Scenario.alice "gw1" Scenario.txCompleted Scenario.walletCompleted.
Proof.
  assert (H1 : "gw1" <> "") by discriminate.
  assert (H2 : Prisma.findByCircleTransferId "gw1"
                 (transactions Scenario.sCompleted) = Some Scenario.txCompleted)
    by reflexivity.
  assert (H3 : Prisma.findUserTransaction (t_id Scenario.txCompleted)
                 (u_id Scenario.alice) (transactions Scenario.sCompleted)
               = Some Scenario.txCompleted) by reflexivity.
  assert (H4 : Prisma.findUniqueWallet (t_walletId Scenario.txCompleted)
                 (wallets Scenario.sCompleted) = Some Scenario.walletCompleted)
    by reflexivity.
  repeat (split; [first [exact H1 | exact H2 | exact H3 | exact H4 | reflexivity]|]).
  exact (settlement_applies_every_time Scenario.production (Scenario.world true)
           Scenario.sCompleted Scenario.alice "gw1" Scenario.txCompleted
           Scenario.walletCompleted H1 H2 H3 H4).
Defined.

(** C2, counterexample.  The transfer of scenario 1 is COMPLETED and its
    wallet holds 49.25 / 49.25 / 0; the same "completed" event delivered
    again leaves -1.5 / 49.25 / -50.75. *)
Lemma completion_redelivered_counterexample :
  statusOf Scenario.sCompleted "tx1" = Some COMPLETED /\
  hasBalances Scenario.sCompleted "w1" 49.25 49.25 0 = true /\
  hasBalances Scenario.sRedelivered "w1" (-1.5) 49.25 (-50.75) = true /\
  ~ sameBalances Scenario.sCompleted Scenario.sRedelivered "w1".
Proof.
  repeat (split; [reflexivity|]).
  intros (w & w' & Hw & Hw' & Hb & _).
  vm_compute in Hw, Hw'. inversion Hw; subst w. inversion Hw'; subst w'.
  vm_compute in Hb. discriminate.
Qed.

(** ** Status transitions *)

Lemma handleTransactionCompleted_transactions wd s event tid t :
  ev_dataId event = Some tid -> tid <> "" ->
  Prisma.findByCircleTransferId tid (transactions s) = Some t ->
  transactions (WebhookController.handleTransactionCompleted wd s event) =
  Prisma.updateTransaction (t_id t)
    (WebhookController.setSettled COMPLETED (Some (now wd))) (transactions s).
Proof.
  intros Hid Hne Ht. unfold WebhookController.handleTransactionCompleted.
  rewrite Hid, (truthyStr_some tid Hne), Ht. simpl.
  now destruct (Prisma.findUniqueWallet _ _).
Qed.

Lemma handleTransactionFailed_transactions s event tid t :
  ev_dataId event = Some tid -> tid <> "" ->
  Prisma.findByCircleTransferId tid (transactions s) = Some t ->
  transactions (WebhookController.handleTransactionFailed s event) =
  Prisma.updateTransaction (t_id t)
    (WebhookController.setSettled FAILED None) (transactions s).
Proof.
  intros Hid Hne Ht. unfold WebhookController.handleTransactionFailed.
  rewrite Hid, (truthyStr_some tid Hne), Ht. simpl.
  now destruct (Prisma.findUniqueWallet _ _).
Qed.

Lemma updateTransactionStatus_transactions wd s u id status message t :
  Prisma.findUserTransaction id (u_id u) (transactions s) = Some t ->
  transactions
    (fst (TransactionController.updateTransactionStatus wd s (Some u) id
            (Some status) message)) =
  Prisma.updateTransaction id
    (TransactionController.setStatus (toUpperCase status)
       (if String.eqb (toUpperCase status) "COMPLETED" then Some (now wd) else None))
    (transactions s).
Proof.
  intros Ht. unfold TransactionController.updateTransactionStatus. rewrite Ht.
  destruct (String.eqb (toUpperCase status) "COMPLETED"); simpl; [|reflexivity].
  now destruct (Prisma.findUniqueWallet _ _).
Qed.

Lemma handleProcessing_frame message s event :
  transactions (WebhookController.handleProcessing message s event) = transactions s /\
  wallets (WebhookController.handleProcessing message s event) = wallets s.
Proof.
  unfold WebhookController.handleProcessing. branches; simpl; auto.
Qed.

Lemma handleProcessing_found message s event tid t :
  ev_dataId event = Some tid -> tid <> "" ->
  Prisma.findByCircleTransferId tid (transactions s) = Some t ->
  WebhookController.handleProcessing message s event =
  Prisma.addHistory s (mkStatusHistory (t_id t) PROCESSING message).
Proof.
  intros Hid Hne Ht. unfold WebhookController.handleProcessing.
  now rewrite Hid, (truthyStr_some tid Hne), Ht.
Qed.

Lemma dispatch_processing wd s event :
  processingType (ev_type event) ->
  exists message,
    WebhookController.dispatch wd s event =
    WebhookController.handleProcessing message s event.
Proof.
  intros [H|[H|[H|H]]]; unfold WebhookController.dispatch; rewrite H;
    eexists; reflexivity.
Qed.

Lemma isOneOf_true t a b : WebhookController.isOneOf t a b = true -> t = a \/ t = b.
Proof.
  unfold WebhookController.isOneOf. intros H. apply orb_prop in H.
  destruct H as [H|H]; apply String.eqb_eq in H; auto.
Qed.

(** Case analysis on the [switch] of [handleCircleWebhook]. *)
Lemma dispatch_cases wd s event (P : Store -> Prop) :
  (forall message, P (WebhookController.handleProcessing message s event)) ->
  (completedType (ev_type event) ->
   P (WebhookController.handleTransactionCompleted wd s event)) ->
  (failedType (ev_type event) ->
   P (WebhookController.handleTransactionFailed s event)) ->
  P s ->
  P (WebhookController.dispatch wd s event).
Proof.
  intros Hproc Hcomp Hfail Hs. unfold WebhookController.dispatch.
  destruct (WebhookController.isOneOf (ev_type event) "transactions.created"
              "transaction.created"); [apply Hproc|].
  destruct (WebhookController.isOneOf (ev_type event) "transactions.confirmed"
              "transaction.confirmed"); [apply Hproc|].
  destruct (WebhookController.isOneOf (ev_type event) "transactions.completed"
              "transaction.completed") eqn:T3.
  { apply Hcomp. now apply isOneOf_true. }
  destruct (WebhookController.isOneOf (ev_type event) "transactions.failed"
              "transaction.failed") eqn:T4.
  { apply Hfail. now apply isOneOf_true. }
  destruct (WebhookController.isOneOf (ev_type event) "wallets.created"
              "wallet.created"); [exact Hs|].
  destruct (WebhookController.isOneOf (ev_type event) "users.created"
              "user.created"); exact Hs.
Qed.

(** C5, as the code has it.  No operation looks at the stored status
    before it writes: [updateTransactionStatus] stores the upper-cased
    status of the request, a "completed" event stores COMPLETED and a
    "failed" event stores FAILED, whatever the status was, COMPLETED and
    FAILED included; a "created" or "confirmed" event leaves the
    transaction and wallet rows as they are, and for the stored transaction
    it appends one PROCESSING row to the status history and nothing else. *)
Theorem status_written_unconditionally e wd s u tid t :
  tid <> "" ->
  Prisma.findByCircleTransferId tid (transactions s) = Some t ->
  Prisma.findUserTransaction (t_id t) (u_id u) (transactions s) = Some t ->
  statusOverwritten e wd s u tid t.
Proof.
  intros Hne Ht Hu. unfold statusOverwritten. cbv zeta.
  split; [|split; [|split]].
  - intros status message.
    rewrite (updateTransactionStatus_transactions wd s u _ status message t Hu).
    eexists. split.
    + apply findUserTransaction_update; [|exact Hu]. intros y. split; reflexivity.
    + reflexivity.
  - intros signature payload event Hty Hid.
    rewrite handleCircleWebhook_dispatches, (dispatch_completed _ _ _ Hty). simpl.
    rewrite (handleTransactionCompleted_transactions wd s event tid t Hid Hne Ht).
    eexists. split.
    + apply findByCircleTransferId_update; [|exact Ht]. reflexivity.
    + reflexivity.
  - intros signature payload event Hty Hid.
    rewrite handleCircleWebhook_dispatches, (dispatch_failed _ _ _ Hty). simpl.
    rewrite (handleTransactionFailed_transactions s event tid t Hid Hne Ht).
    eexists. split.
    + apply findByCircleTransferId_update; [|exact Ht]. reflexivity.
    + reflexivity.
  - intros signature payload event Hty.
    rewrite handleCircleWebhook_dispatches. simpl.
    destruct (dispatch_processing wd s event Hty) as [message ->].
    destruct (handleProcessing_frame message s event) as [H1 H2].
    split; [exact H1|]. split; [exact H2|].
    intros Hid. exists message.
    now rewrite (handleProcessing_found message s event tid t Hid Hne Ht).
Qed.

Lemma status_written_unconditionally_witness :
  "gw1" <> "" /\
  Prisma.findByCircleTransferId "gw1" (transactions Scenario.sCompleted)
  = Some Scenario.txCompleted /\
  t_status Scenario.txCompleted = COMPLETED /\
  Prisma.findUserTransaction (t_id Scenario.txCompleted) (u_id Scenario.alice)
    (transactions Scenario.sCompleted) = Some Scenario.txCompleted /\
  statusOverwritten Scenario.production (Scenario.world true) Scenario.sCompleted
    Scenario.alice "gw1" Scenario.txCompleted.
Proof.
  assert (H1 : "gw1" <> "") by discriminate.
  assert (H2 : Prisma.findByCircleTransferId "gw1"
                 (transactions Scenario.sCompleted) = Some Scenario.txCompleted)
    by reflexivity.
  assert (H3 : Prisma.findUserTransaction (t_id Scenario.txCompleted)
                 (u_id Scenario.alice) (transactions Scenario.sCompleted)
               = Some Scenario.txCompleted) by reflexivity.
  repeat (split; [first [exact H1 | exact H2 | exact H3 | reflexivity]|]).
  exact (status_written_unconditionally Scenario.production (Scenario.world true)
           Scenario.sCompleted Scenario.alice "gw1" Scenario.txCompleted H1 H2 H3).
Defined.

(** C5, counterexample.  The COMPLETED transfer of scenario 1 becomes
    FAILED when a "failed" event arrives for it, and PENDING when its owner
    sends the status "pending". *)
Lemma terminal_status_left_counterexample :
  statusOf Scenario.sCompleted "tx1" = Some COMPLETED /\
  statusOf Scenario.sFailedAfterCompleted "tx1" = Some FAILED /\
  statusOf
    (fst (TransactionController.updateTransactionStatus (Scenario.world true)
            Scenario.sCompleted (Some Scenario.alice) "tx1" (Some "pending") None))
    "tx1" = Some PENDING.
Proof. repeat split; reflexivity. Qed.

(** ** Non-negative balances *)


Lemma unique_row (l : list Wallet) w w' :
  NoDup (map w_id l) -> In w l -> In w' l -> w_id w = w_id w' -> w = w'.
Proof.
  induction l as [|x l IH]; simpl; [tauto|].
  intros Hnd [Hw|Hw] [Hw'|Hw'] Hid; inversion Hnd as [|? ? Hnotin Hnd']; subst.
  - reflexivity.
  - exfalso. apply Hnotin. rewrite Hid. now apply in_map.
  - exfalso. apply Hnotin. rewrite <- Hid. now apply in_map.
  - now apply IH.
Qed.










(** ** getExchangeRate *)

Lemma newest_spec l e :
  ExchangeRateService.newest l = Some e ->
  In e l /\ forall e', In e' l -> (timestamp e' <= timestamp e)%Z.
Proof.
  revert e. induction l as [|x l IH]; simpl; [discriminate|].
  intros e. destruct (ExchangeRateService.newest l) as [e0|] eqn:E.
  - destruct (IH e0 eq_refl) as [Hin Hmax].
    destruct (timestamp x <? timestamp e0)%Z eqn:C; intros H; inversion H; subst.
    + apply Z.ltb_lt in C. split; [now right|].
      intros e' [->|He']; [lia | now apply Hmax].
    + apply Z.ltb_ge in C. split; [now left|].
      intros e' [->|He']; [lia|]. specialize (Hmax e' He'). lia.
  - intros H; inversion H; subst. split; [now left|].
    intros e' [->|He']; [lia|].
    destruct l; [destruct He' | simpl in E].
    destruct (ExchangeRateService.newest l); [|discriminate].
    destruct (_ <? _)%Z; discriminate.
Qed.

Lemma newest_none l : ExchangeRateService.newest l = None -> l = [].
Proof.
  destruct l as [|x l]; [reflexivity|]. simpl.
  destruct (ExchangeRateService.newest l); [|discriminate].
  destruct (_ <? _)%Z; discriminate.
Qed.

Lemma findCachedRate_none s now fromC toC :
  noFreshQuote s now fromC toC ->
  ExchangeRateService.findCachedRate now fromC toC (exchangeRates s) = None.
Proof.
  unfold noFreshQuote, ExchangeRateService.findCachedRate. intros H.
  induction (exchangeRates s) as [|x l IH]; simpl; [reflexivity|].
  rewrite (H x (or_introl eq_refl)). apply IH. intros row Hrow. apply H. now right.
Qed.

Lemma findCachedRate_some s now fromC toC row :
  In row (exchangeRates s) ->
  ExchangeRateService.isFresh now fromC toC row = true ->
  exists newest,
    ExchangeRateService.findCachedRate now fromC toC (exchangeRates s) = Some newest /\
    newestFreshQuote s now fromC toC newest.
Proof.
  intros Hin Hfresh. unfold ExchangeRateService.findCachedRate, newestFreshQuote.
  destruct (ExchangeRateService.newest
              (filter (ExchangeRateService.isFresh now fromC toC) (exchangeRates s)))
    as [e|] eqn:E.
  - exists e. split; [reflexivity|].
    destruct (newest_spec _ _ E) as [He Hmax].
    apply filter_In in He. destruct He as [He1 He2].
    split; [exact He1|]. split; [exact He2|].
    intros row' Hin' Hfresh'. apply Hmax. apply filter_In. now split.
  - apply newest_none in E.
    assert (Hf : In row (filter (ExchangeRateService.isFresh now fromC toC)
                           (exchangeRates s))) by (apply filter_In; now split).
    rewrite E in Hf. destruct Hf.
Qed.

Lemma truthyNumOpt_nonzero a : Js.truthy a = true -> truthyNumOpt (Some a) = Some a.
Proof. intros H. unfold truthyNumOpt. now rewrite H. Qed.

(** C9, as the code has it.  [getExchangeRate(c, c)] is exactly 1.  For
    distinct currencies, when the cache holds a quote of the pair itself
    written within the last hour, the rate of the newest such quote is
    returned; when it holds none and the quote API returns non-zero quotes
    of both currencies against USD, the result is
    [rate(USD,B) / rate(USD,A)], units of B per unit of A.  At the rate
    0.00067, 1,000,000 NGN convert to 670.00 USD. *)
Theorem getExchangeRate_contract s now api fromC toC :
  exchangeRateContract s now api fromC toC.
Proof.
  unfold exchangeRateContract. split; [|split; [|split]].
  - unfold ExchangeRateService.getExchangeRate. now rewrite String.eqb_refl.
  - intros Hne. apply String.eqb_neq in Hne. split.
    + intros row Hin Hfresh.
      destruct (findCachedRate_some s now fromC toC row Hin Hfresh)
        as (newest & Hfind & Hnew).
      exists newest. split; [exact Hnew|].
      unfold ExchangeRateService.getExchangeRate. now rewrite Hne, Hfind.
    + intros Hnone rates a b -> Ha Hb Ha0 Hb0. split.
      * unfold crossRate. now rewrite Ha, Hb.
      * unfold ExchangeRateService.getExchangeRate.
        rewrite Hne, (findCachedRate_none s now fromC toC Hnone), Ha, Hb.
        now rewrite (truthyNumOpt_nonzero a Ha0), (truthyNumOpt_nonzero b Hb0).
  - vm_compute. reflexivity.
  - vm_compute. reflexivity.
Qed.

Lemma getExchangeRate_contract_witness :
  ExchangeRateService.getExchangeRate Scenario.s0 CachedQuote.nowMs
    (Some Scenario.quotes) "NGN" "USD" = 0.00067 /\
  ExchangeRateService.getExchangeRate CachedQuote.store CachedQuote.nowMs
    (Some Scenario.quotes) "NGN" "USD" = rate CachedQuote.cached.
Proof.
  pose proof (getExchangeRate_contract Scenario.s0 CachedQuote.nowMs
                (Some Scenario.quotes) "NGN" "USD") as (_ & H & _).
  assert (Hne : "NGN" <> "USD") by discriminate.
  destruct (H Hne) as [_ Hcross].
  assert (Hnone : noFreshQuote Scenario.s0 CachedQuote.nowMs "NGN" "USD").
  { intros row []. }
  destruct (Hcross Hnone Scenario.quotes (100000 / 67) 1 eq_refl eq_refl eq_refl)
    as [_ ->]; [reflexivity | reflexivity |].
  split; [vm_compute; reflexivity | reflexivity].
Defined.

(** C9, counterexample.  Both currencies are quoted against USD
    (1 USD = 100000/67 NGN), so the composed rate is 0.00067; the cache
    holds a quote of the pair written ten minutes ago at 0.00065, and that
    is what [getExchangeRate] returns. *)
Lemma cached_quote_counterexample :
  "NGN" <> "USD" /\
  crossRate Scenario.quotes "NGN" "USD" = Some 0.00067 /\
  ExchangeRateService.getExchangeRate CachedQuote.store CachedQuote.nowMs
    (Some Scenario.quotes) "NGN" "USD" = 0.00065 /\
  (0.00065 =? 0.00067) = false.
Proof.
  split; [discriminate|]. split; [vm_compute; reflexivity|].
  split; [vm_compute; reflexivity | reflexivity].
Qed.

(** ** Failure of the settlement initiation *)

(** When the gateway call throws, [createTransfer] answers 500 and returns
    from its [catch]: the store is the one left by the reservation. *)
Lemma createTransfer_gateway_throws e wd s u body a w c :
  amount body = Num a ->
  Prisma.findActiveWallet (u_id u) (sourceWallet body) (wallets s) = Some w ->
  (availableBalance w <? a + a * 0.015) = false ->
  truthyStr (circleCustomerId u) = Some c ->
  CircleService.createGatewayTransfer e wd = ApiThrows ->
  let r := TransactionController.createTransfer e wd s (Some u) body in
  snd r = reply 500 false /\
  wallets (fst r) =
    Prisma.updateWallet (w_id w) (Prisma.reserve (a + a * 0.015)) (wallets s) /\
  exists tx, transactions (fst r) = transactions s ++ [tx] /\
             t_id tx = newId wd /\ t_status tx = PENDING.
Proof.
  intros Ha Hw Hle Hc Hgw. unfold TransactionController.createTransfer.
  rewrite Hw, Ha. change TransactionController.feePercentage with 0.015.
  simpl toNum. simpl plus. rewrite Hle, Hc, Hgw. simpl.
  split; [reflexivity|]. split; [reflexivity|].
  eexists. split; [reflexivity|]. split; reflexivity.
Qed.

(** C3, the code at the failing input.  Alice, a Circle customer, sends 50
    USD from the wallet 100 / 100 / 0 and the gateway call throws: the
    answer is 500, the transaction stays PENDING with no transfer id, and
    the wallet stays at 100 / 49.25 / 50.75, the debit still reserved. *)
Theorem initiation_failure_keeps_reservation :
  CircleService.createGatewayTransfer Scenario.production (Scenario.world false)
  = ApiThrows /\
  statusCode (snd Scenario.sGatewayDown) = 500%nat /\
  statusOf (fst Scenario.sGatewayDown) "tx1" = Some PENDING /\
  option_map t_circleTransferId
    (find (fun t => String.eqb (t_id t) "tx1")
       (transactions (fst Scenario.sGatewayDown))) = Some None /\
  hasBalances (fst Scenario.sGatewayDown) "w1" 100 49.25 50.75 = true /\
  map h_status (statusHistory (fst Scenario.sGatewayDown)) = [PENDING].
Proof. repeat split; vm_compute; reflexivity. Qed.

(** ** Webhook signatures *)

Lemma rampnow_signature_checked hmac e rawBody signature :
  env_NODE_ENV e <> Some "development" ->
  RampnowService.verifyWebhookSignature hmac e rawBody signature = true <->
  exists sig secret,
    truthyStr signature = Some sig /\
    truthyStr (RAMPNOW_WEBHOOK_SECRET e) = Some secret /\
    toLowerCase sig = toLowerCase (toLowerCase (hmac secret rawBody)).
Proof.
  intros Hprod. unfold RampnowService.verifyWebhookSignature.
  assert (Hdev : optStrEqb (env_NODE_ENV e) "development" = false).
  { destruct (env_NODE_ENV e) as [n|]; simpl; [|reflexivity].
    apply String.eqb_neq. congruence. }
  destruct (truthyStr signature) as [sig|];
    [destruct (truthyStr (RAMPNOW_WEBHOOK_SECRET e)) as [secret|]|].
  - rewrite String.eqb_eq. split.
    + intros H. exists sig, secret. auto.
    + intros (sig' & secret' & H1 & H2 & H3). congruence.
  - rewrite Hdev. split; [discriminate|].
    intros (sig' & secret' & _ & H & _). discriminate.
  - rewrite Hdev. split; [discriminate|].
    intros (sig' & secret' & H & _). discriminate.
Qed.

Lemma rampnow_rejects_unverified hmac json e wd s req :
  RampnowService.verifyWebhookSignature hmac e (rawBody req)
    (orStr (x_rampnow_signature req) (x_signature req)) = false ->
  RampnowWebhookController.handle hmac json e wd s req = (s, reply 401 false).
Proof.
  intros H. unfold RampnowWebhookController.handle. now rewrite H.
Qed.

(** C7, the code at the failing input.  [CircleService.verifyWebhookSignature]
    returns [true] for every environment, payload and signature; in a
    production environment the "completed" event for the reserved transfer
    of scenario 1, sent with the signature "forged" and with none, is
    answered 200 and settles the wallet to 49.25 / 49.25 / 0.  The Rampnow
    handler, in the same environment, answers 401 to a wrong signature and
    leaves the store. *)
Theorem circle_webhook_accepts_any_signature :
  (forall e payload signature,
     CircleService.verifyWebhookSignature e payload signature = true) /\
  config_NODE_ENV Scenario.production = "production" /\
  (forall signature,
     let r := WebhookController.handleCircleWebhook Scenario.production
                (Scenario.world true) Scenario.sReserved signature "{}"
                Scenario.completedEvent in
     statusCode (snd r) = 200%nat /\
     statusOf (fst r) "tx1" = Some COMPLETED /\
     hasBalances (fst r) "w1" 49.25 49.25 0 = true) /\
  RampnowWebhookController.handle Forged.hmac Forged.jsonParses Scenario.production
    (Scenario.world true) Scenario.sReserved Forged.forged
  = (Scenario.sReserved, reply 401 false).
Proof.
  split; [apply circle_signature_always_accepted|].
  split; [reflexivity|]. split; [|reflexivity].
  intros signature. cbv zeta. rewrite handleCircleWebhook_dispatches.
  repeat split; vm_compute; reflexivity.
Qed.

(** ** Events for unknown transactions *)




(** A verified Rampnow event without a session id, or with an empty one,
    names no transaction at all: it is answered 400 before the store is
    read. *)
Lemma rampnow_missing_session hmac json e wd s req :
  RampnowService.verifyWebhookSignature hmac e (rawBody req)
    (orStr (x_rampnow_signature req) (x_signature req)) = true ->
  truthyStr (orStr (r_id (body req)) (r_sessionId (body req))) = None ->
  RampnowWebhookController.handle hmac json e wd s req = (s, reply 400 false).
Proof.
  intros Hver Hid. unfold RampnowWebhookController.handle. now rewrite Hver, Hid.
Qed.

Example rampnow_empty_session_refused :
  RampnowWebhookController.handle Forged.hmac Forged.jsonParses Scenario.production
    (Scenario.world true) Scenario.sReserved Forged.noSession
  = (Scenario.sReserved, reply 400 false).
Proof. reflexivity. Qed.

(** * Further properties *)

(** ** The exchange-rate cache *)

Lemma truthyNumOpt_unquoted c rates :
  unquoted c rates -> truthyNumOpt (ExchangeRateService.lookupRate c rates) = None.
Proof.
  unfold unquoted. destruct (ExchangeRateService.lookupRate c rates) as [v|];
    [|reflexivity].
  intros H. unfold truthyNumOpt. now rewrite H.
Qed.

Lemma getExchangeRate_fallback s now api fromC toC :
  noFreshQuote s now fromC toC ->
  (api = None \/
   exists rates, api = Some rates /\ (unquoted fromC rates \/ unquoted toC rates)) ->
  ExchangeRateService.getExchangeRate s now api fromC toC = 1.
Proof.
  intros Hnone Hapi. unfold ExchangeRateService.getExchangeRate.
  destruct (String.eqb fromC toC); [reflexivity|].
  rewrite (findCachedRate_none s now fromC toC Hnone).
  destruct Hapi as [-> | (rates & -> & [H|H])]; [reflexivity | |].
  - now rewrite (truthyNumOpt_unquoted _ _ H).
  - rewrite (truthyNumOpt_unquoted _ _ H).
    now destruct (truthyNumOpt (ExchangeRateService.lookupRate fromC rates)).
Qed.

(** X1. Without a quote of the pair in the cache from the last hour,
    [getExchangeRate] returns 1 whenever the quote API fails or its table
    has no non-zero quote of one of the two currencies: it never fails and
    never reports that no rate was found. *)
Theorem getExchangeRate_falls_back_to_one s now api fromC toC :
  noFreshQuote s now fromC toC ->
  (api = None \/
   exists rates, api = Some rates /\ (unquoted fromC rates \/ unquoted toC rates)) ->
  ExchangeRateService.getExchangeRate s now api fromC toC = 1.
Proof. apply getExchangeRate_fallback. Qed.

Lemma getExchangeRate_falls_back_to_one_witness :
  noFreshQuote Scenario.s0 CachedQuote.nowMs "NGN" "KES" /\
  unquoted "KES" Scenario.quotes /\
  ExchangeRateService.getExchangeRate Scenario.s0 CachedQuote.nowMs
    (Some Scenario.quotes) "NGN" "KES" = 1.
Proof.
  assert (H1 : noFreshQuote Scenario.s0 CachedQuote.nowMs "NGN" "KES").
  { intros row []. }
  assert (H2 : unquoted "KES" Scenario.quotes) by exact I.
  split; [exact H1|]. split; [exact H2|].
  apply (getExchangeRate_falls_back_to_one Scenario.s0 CachedQuote.nowMs
           (Some Scenario.quotes) "NGN" "KES" H1).
  right. exists Scenario.quotes. split; [reflexivity | right; exact H2].
Defined.

Lemma cacheRates_rows now base rates s :
  exchangeRates (ExchangeRateService.cacheRates now base rates s) =
  filter (fun e => negb (String.eqb (fromCurrency e) base)) (exchangeRates s) ++
  map (cachedRow now base)
      (filter (fun cr => ExchangeRateService.isSupported (fst cr)) rates).
Proof. reflexivity. Qed.

Lemma other_base_not_fresh now base c l :
  filter (ExchangeRateService.isFresh now base c)
         (filter (fun e => negb (String.eqb (fromCurrency e) base)) l) = [].
Proof.
  induction l as [|e l IH]; simpl; [reflexivity|].
  destruct (String.eqb (fromCurrency e) base) eqn:E; simpl; [exact IH|].
  unfold ExchangeRateService.isFresh at 1. now rewrite E.
Qed.

Lemma isSupported_eqb k c :
  String.eqb k c = true ->
  ExchangeRateService.isSupported k = ExchangeRateService.isSupported c.
Proof. intros H. apply String.eqb_eq in H. now subst. Qed.

Lemma lookupRate_supported c rates :
  ExchangeRateService.lookupRate c
    (filter (fun cr => ExchangeRateService.isSupported (fst cr)) rates) =
  if ExchangeRateService.isSupported c
  then ExchangeRateService.lookupRate c rates else None.
Proof.
  induction rates as [|[k x] rates IH]; simpl.
  - now destruct (ExchangeRateService.isSupported c).
  - destruct (String.eqb k c) eqn:E.
    + rewrite <- (isSupported_eqb k c E).
      destruct (ExchangeRateService.isSupported k) eqn:S; simpl.
      * now rewrite E.
      * rewrite IH, <- (isSupported_eqb k c E), S. reflexivity.
    + destruct (ExchangeRateService.isSupported k); simpl; [rewrite E|]; exact IH.
Qed.

(** The newest fresh row of the pair among the rows just written is the
    row of the first entry of the table with that key. *)
Lemma newest_written_row now0 now base c (l : ExchangeRateService.Rates) :
  (now - ExchangeRateService.CACHE_DURATION <= now0)%Z ->
  ExchangeRateService.newest
    (filter (ExchangeRateService.isFresh now base c) (map (cachedRow now0 base) l)) =
  option_map (fun e => cachedRow now0 base e)
    (find (fun cr => String.eqb (fst cr) c) l).
Proof.
  intros Hfresh. induction l as [|[k x] l IH]; [reflexivity|].
  simpl. unfold ExchangeRateService.isFresh at 1. simpl.
  rewrite String.eqb_refl. simpl.
  assert (T : (now - ExchangeRateService.CACHE_DURATION <=? now0)%Z = true)
    by now apply Z.leb_le.
  rewrite T, andb_true_r.
  destruct (String.eqb k c) eqn:E; [|exact IH].
  simpl. rewrite IH.
  destruct (find (fun cr => String.eqb (fst cr) c) l) as [e|]; simpl; [|reflexivity].
  now rewrite Z.ltb_irrefl.
Qed.

Lemma find_key_lookupRate c (l : ExchangeRateService.Rates) :
  option_map snd (find (fun cr => String.eqb (fst cr) c) l) =
  ExchangeRateService.lookupRate c l.
Proof.
  induction l as [|[k x] l IH]; simpl; [reflexivity|].
  destruct (String.eqb k c); [reflexivity | exact IH].
Qed.

Lemma stale_written_rows now0 now base c (l : ExchangeRateService.Rates) :
  (now0 < now - ExchangeRateService.CACHE_DURATION)%Z ->
  filter (ExchangeRateService.isFresh now base c) (map (cachedRow now0 base) l) = [].
Proof.
  intros Hstale. induction l as [|[k x] l IH]; [reflexivity|].
  simpl. unfold ExchangeRateService.isFresh at 1. simpl.
  assert (T : (now - ExchangeRateService.CACHE_DURATION <=? now0)%Z = false)
    by now apply Z.leb_gt.
  now rewrite T, andb_false_r.
Qed.

(** X2. A quote written by [cacheRates] (through [getExchangeRates] or
    [updateExchangeRates]) at time [now0] for a supported currency is what
    [getExchangeRate] returns for the pair during the following hour,
    whatever the quote API answers then and whatever the cache held before;
    once the hour has passed the cache holds no fresh quote of the pair. *)
Theorem cached_quote_round_trip now0 now base rates s api c v :
  base <> c ->
  ExchangeRateService.isSupported c = true ->
  ExchangeRateService.lookupRate c rates = Some v ->
  let s1 := ExchangeRateService.cacheRates now0 base rates s in
  ((now - ExchangeRateService.CACHE_DURATION <= now0)%Z ->
   ExchangeRateService.getExchangeRate s1 now api base c = v) /\
  ((now0 < now - ExchangeRateService.CACHE_DURATION)%Z ->
   noFreshQuote s1 now base c).
Proof.
  intros Hne Hsup Hv. cbv zeta. split.
  - intros Hfresh. unfold ExchangeRateService.getExchangeRate.
    apply String.eqb_neq in Hne. rewrite Hne.
    unfold ExchangeRateService.findCachedRate.
    rewrite cacheRates_rows, filter_app, other_base_not_fresh. simpl.
    rewrite (newest_written_row now0 now base c _ Hfresh).
    pose proof (find_key_lookupRate c
                  (filter (fun cr => ExchangeRateService.isSupported (fst cr)) rates))
      as Hk.
    rewrite lookupRate_supported, Hsup, Hv in Hk.
    destruct (find _ _) as [[k x]|]; simpl in *; [|discriminate].
    now inversion Hk.
  - intros Hstale row Hin. rewrite cacheRates_rows in Hin.
    destruct (ExchangeRateService.isFresh now base c row) eqn:F; [|reflexivity].
    exfalso.
    assert (Hf : In row (filter (ExchangeRateService.isFresh now base c)
                           (exchangeRates
                              (ExchangeRateService.cacheRates now0 base rates s)))).
    { apply filter_In. split; [now rewrite cacheRates_rows | exact F]. }
    rewrite cacheRates_rows, filter_app, other_base_not_fresh in Hf. simpl in Hf.
    now rewrite (stale_written_rows now0 now base c _ Hstale) in Hf.
Qed.

Lemma cached_quote_round_trip_witness :
  "USD" <> "EUR" /\
  ExchangeRateService.isSupported "EUR" = true /\
  ExchangeRateService.lookupRate "EUR" Scenario.quotes = Some 0.92 /\
  ExchangeRateService.getExchangeRate
    (ExchangeRateService.cacheRates CachedQuote.nowMs "USD" Scenario.quotes
       CachedQuote.store)
    (CachedQuote.nowMs + 1800000) None "USD" "EUR" = 0.92.
Proof.
  assert (H1 : "USD" <> "EUR") by discriminate.
  assert (H2 : ExchangeRateService.isSupported "EUR" = true) by reflexivity.
  assert (H3 : ExchangeRateService.lookupRate "EUR" Scenario.quotes = Some 0.92)
    by reflexivity.
  split; [exact H1|]. split; [exact H2|]. split; [exact H3|].
  apply (cached_quote_round_trip CachedQuote.nowMs (CachedQuote.nowMs + 1800000)
           "USD" Scenario.quotes CachedQuote.store None "EUR" 0.92 H1 H2 H3).
  discriminate.
Defined.

Lemma lookupRate_setRate k k0 v0 acc :
  ExchangeRateService.lookupRate k (ExchangeRateService.setRate k0 v0 acc) =
  if String.eqb k0 k then Some v0 else ExchangeRateService.lookupRate k acc.
Proof.
  induction acc as [|[a x] acc IH]; simpl.
  - reflexivity.
  - destruct (String.eqb_spec a k0) as [->|Hak0]; simpl.
    + now destruct (String.eqb k0 k).
    + destruct (String.eqb_spec a k) as [->|Hak].
      * destruct (String.eqb_spec k0 k) as [->|_]; [contradiction | reflexivity].
      * exact IH.
Qed.

Lemma lookupRate_not_key k (l : ExchangeRateService.Rates) :
  ~ In k (map fst l) -> ExchangeRateService.lookupRate k l = None.
Proof.
  induction l as [|[a x] l IH]; simpl; [reflexivity|].
  intros H. destruct (String.eqb_spec a k) as [->|_]; [tauto|].
  apply IH. tauto.
Qed.

Lemma lookupRate_written now0 base (l acc : ExchangeRateService.Rates) k :
  NoDup (map fst l) ->
  ExchangeRateService.lookupRate k
    (fold_left (fun rates row =>
                  ExchangeRateService.setRate (toCurrency row) (rate row) rates)
               (map (cachedRow now0 base) l) acc) =
  match ExchangeRateService.lookupRate k l with
  | Some v => Some v
  | None => ExchangeRateService.lookupRate k acc
  end.
Proof.
  revert acc. induction l as [|[a x] l IH]; intros acc Hnd; [reflexivity|].
  inversion Hnd as [|? ? Hnotin Hnd']; subst. simpl.
  rewrite (IH _ Hnd'), lookupRate_setRate.
  destruct (String.eqb_spec a k) as [->|_]; [|reflexivity].
  now rewrite (lookupRate_not_key k l Hnotin).
Qed.

Lemma NoDup_keys_filter (p : string * float -> bool) (l : ExchangeRateService.Rates) :
  NoDup (map fst l) -> NoDup (map fst (filter p l)).
Proof.
  induction l as [|a l IH]; simpl; [trivial|].
  intros Hnd. inversion Hnd as [|? ? Hnotin Hnd']; subst.
  destruct (p a); simpl; [|now apply IH].
  constructor; [|now apply IH].
  intros Hin. apply Hnotin. apply in_map_iff in Hin.
  destruct Hin as (y & Hy & Hin). apply filter_In in Hin.
  apply in_map_iff. exists y. tauto.
Qed.

Lemma sort_written_rows now0 base (l : ExchangeRateService.Rates) :
  ExchangeRateService.sortByTimestampDesc (map (cachedRow now0 base) l) =
  map (cachedRow now0 base) l.
Proof.
  unfold ExchangeRateService.sortByTimestampDesc.
  induction l as [|a l IH]; [reflexivity|].
  simpl. rewrite IH. destruct l as [|b l]; [reflexivity|].
  simpl. now rewrite Z.leb_refl.
Qed.

Lemma fresh_rows_of_base now0 now base rates s :
  (now - ExchangeRateService.CACHE_DURATION <= now0)%Z ->
  filter (fun e => String.eqb (fromCurrency e) base
                   && (now - ExchangeRateService.CACHE_DURATION <=? timestamp e)%Z)
         (exchangeRates (ExchangeRateService.cacheRates now0 base rates s)) =
  map (cachedRow now0 base)
      (filter (fun cr => ExchangeRateService.isSupported (fst cr)) rates).
Proof.
  intros Hfresh. rewrite cacheRates_rows, filter_app.
  assert (Hkept : forall l,
            filter (fun e => String.eqb (fromCurrency e) base
                             && (now - ExchangeRateService.CACHE_DURATION
                                 <=? timestamp e)%Z)
                   (filter (fun e => negb (String.eqb (fromCurrency e) base)) l) = []).
  { induction l as [|e l IH]; simpl; [reflexivity|].
    destruct (String.eqb (fromCurrency e) base) eqn:E; simpl; [exact IH|].
    now rewrite E. }
  rewrite Hkept. simpl.
  induction (filter (fun cr => ExchangeRateService.isSupported (fst cr)) rates)
    as [|a l IH]; [reflexivity|].
  simpl. rewrite String.eqb_refl. simpl.
  assert (T : (now - ExchangeRateService.CACHE_DURATION <=? now0)%Z = true)
    by now apply Z.leb_le.
  rewrite T. now rewrite IH.
Qed.

(** X3. After [cacheRates] has stored a fetched table with distinct keys,
    [getExchangeRates] for that base answers from the cache for the next
    hour: it leaves the store as it is, does not depend on the quote API,
    and its table holds exactly the supported currencies of the fetched
    table with their quotes; the other currencies of the fetched table are
    gone. *)
Theorem rates_served_from_cache now0 now base rates s api c v :
  NoDup (map fst rates) ->
  (now - ExchangeRateService.CACHE_DURATION <= now0)%Z ->
  ExchangeRateService.isSupported c = true ->
  ExchangeRateService.lookupRate c rates = Some v ->
  let s1 := ExchangeRateService.cacheRates now0 base rates s in
  exists table,
    ExchangeRateService.getExchangeRates now api base s1 = (s1, table) /\
    forall k,
      ExchangeRateService.lookupRate k table =
      if ExchangeRateService.isSupported k
      then ExchangeRateService.lookupRate k rates else None.
Proof.
  intros Hnd Hfresh Hsup Hv. cbv zeta.
  unfold ExchangeRateService.getExchangeRates, ExchangeRateService.getCachedRates.
  rewrite (fresh_rows_of_base now0 now base rates s Hfresh), sort_written_rows.
  remember (filter (fun cr => ExchangeRateService.isSupported (fst cr)) rates)
    as l eqn:El.
  assert (Hc : ExchangeRateService.lookupRate c l = Some v).
  { subst l. now rewrite lookupRate_supported, Hsup. }
  assert (Hl : NoDup (map fst l)) by (subst l; now apply NoDup_keys_filter).
  assert (Hk : forall k,
            ExchangeRateService.lookupRate k l =
            if ExchangeRateService.isSupported k
            then ExchangeRateService.lookupRate k rates else None).
  { intros k. subst l. apply lookupRate_supported. }
  clear El. destruct l as [|a l']; [discriminate|].
  eexists. split; [reflexivity|].
  intros k.
  change (cachedRow now0 base a :: map (cachedRow now0 base) l')
    with (map (cachedRow now0 base) (a :: l')).
  rewrite (lookupRate_written now0 base (a :: l') [] k Hl), <- Hk.
  now destruct (ExchangeRateService.lookupRate k (a :: l')).
Qed.

Lemma rates_served_from_cache_witness :
  NoDup (map fst (("XAU", 0.002) :: Scenario.quotes)) /\
  ExchangeRateService.isSupported "NGN" = true /\
  exists table,
    ExchangeRateService.getExchangeRates (CachedQuote.nowMs + 1800000) None "USD"
      (ExchangeRateService.cacheRates CachedQuote.nowMs "USD"
         (("XAU", 0.002) :: Scenario.quotes) Scenario.s0) =
    (ExchangeRateService.cacheRates CachedQuote.nowMs "USD"
       (("XAU", 0.002) :: Scenario.quotes) Scenario.s0, table) /\
    ExchangeRateService.lookupRate "NGN" table = Some (100000 / 67) /\
    ExchangeRateService.lookupRate "XAU" table = None.
Proof.
  assert (H1 : NoDup (map fst (("XAU", 0.002) :: Scenario.quotes))).
  { simpl. repeat constructor; simpl; intuition discriminate. }
  assert (H2 : ExchangeRateService.isSupported "NGN" = true) by reflexivity.
  split; [exact H1|]. split; [exact H2|].
  destruct (rates_served_from_cache CachedQuote.nowMs (CachedQuote.nowMs + 1800000)
              "USD" (("XAU", 0.002) :: Scenario.quotes) Scenario.s0 None
              "NGN" (100000 / 67) H1) as (table & Ht & Hk);
    [discriminate | exact H2 | reflexivity |].
  exists table. split; [exact Ht|].
  split; [rewrite Hk | rewrite Hk]; reflexivity.
Defined.

(** ** Quotes and transfers *)

(** X5. A transfer of an amount sent as a number that is answered 201 is
    charged what [calculateTransferFees] quotes for the same amount (the
    query text that [parseFloat] reads as that number) and the same
    currencies on the same store, clock and quote table: the same exchange
    rate and the same amount for the recipient, and the quoted fee and
    total are the fee [amount * 0.015] and the total [amount + fee] of the
    transfer rounded by [toFixed(2)]; the wallet is debited the unrounded
    total. *)
Theorem quote_honoured_by_transfer e wd s u body a text :
  amount body = Num a ->
  Js.parseFloat text = a ->
  text <> "" ->
  sourceWallet body <> "" ->
  statusCode (snd (TransactionController.createTransfer e wd s (Some u) body))
  = 201%nat ->
  exists quote b,
    TransactionController.calculateTransferFees s (now wd) (quoteApi wd)
      (Some text) (Some (sourceWallet body)) (recipientCurrency body)
    = (200%nat, Some quote) /\
    breakdown (snd (TransactionController.createTransfer e wd s (Some u) body))
    = Some b /\
    quoteHonoured a quote b.
Proof.
  intros Ha Htext Hne Hsrc Hcode.
  unfold TransactionController.calculateTransferFees.
  rewrite (truthyStr_some _ Hne), (truthyStr_some _ Hsrc), Htext.
  unfold TransactionController.createTransfer in *.
  destruct (Prisma.findActiveWallet _ _ _) as [w|]; [|discriminate].
  rewrite Ha in *. simpl toNum in *. simpl plus in *. simpl Prisma.decimal in *.
  destruct (_ <? _); [discriminate|]. cbv iota in *.
  unfold TransactionController.respond, TransactionController.recipientAmount in *.
  change TransactionController.feePercentage with 0.015 in *.
  destruct (String.eqb (sourceWallet body)
              (match recipientCurrency body with Some c => c | None => "USD" end));
    (destruct (truthyStr (circleCustomerId u));
     [destruct (CircleService.createGatewayTransfer e wd) as [| |[|id|]];
      try discriminate|];
     (eexists; eexists; split; [reflexivity|]; split; [reflexivity|];
      unfold quoteHonoured; simpl; repeat split)).
Qed.

Lemma quote_honoured_by_transfer_witness :
  exists quote b,
    TransactionController.calculateTransferFees Scenario.s0
      (now (Scenario.world true)) (quoteApi (Scenario.world true))
      (Some "50") (Some (sourceWallet Scenario.send50))
      (recipientCurrency Scenario.send50) = (200%nat, Some quote) /\
    breakdown (snd (TransactionController.createTransfer Scenario.production
                      (Scenario.world true) Scenario.s0 (Some Scenario.alice)
                      Scenario.send50)) = Some b /\
    quoteHonoured 50 quote b /\ q_recipientReceives quote = 46.
Proof.
  destruct (quote_honoured_by_transfer Scenario.production (Scenario.world true)
              Scenario.s0 Scenario.alice Scenario.send50 50 "50")
    as (quote & b & Hq & Hb & Hh);
    [reflexivity | vm_compute; reflexivity | discriminate | discriminate
    | vm_compute; reflexivity |].
  exists quote, b. split; [exact Hq|]. split; [exact Hb|]. split; [exact Hh|].
  vm_compute in Hq. inversion Hq; subst quote. reflexivity.
Defined.

(** The quote rounds where the transfer does not: for the amount 1 the fee
    0.015 (in binary64 a little below it) is quoted as 0.01 and the total
    as 1.01. *)
Example quote_of_one :
  snd (TransactionController.calculateTransferFees Scenario.s0
         (now (Scenario.world true)) (quoteApi (Scenario.world true))
         (Some "1") (Some "USD") (Some "EUR"))
  = Some (mkFeeQuote 1 0.01 1.01 0.92 0.92 1.5).
Proof. vm_compute. reflexivity. Qed.

Lemma mock_gateway_answers e wd :
  CIRCLE_GATEWAY_ENABLED e = false -> ~ gatewayFails e wd.
Proof.
  intros He. unfold gatewayFails, CircleService.createGatewayTransfer.
  rewrite He. simpl. intros [H|[H|H]]; discriminate.
Qed.

(** X6. [createTransfer] answers 401, 404, 400, 201 or 500.  It answers
    401 exactly without a user; a 401, 404 or 400 leaves the store
    untouched; [success] is set exactly on 201.  For an amount sent as a
    number it answers 500 exactly when the gateway hands back no transfer
    (its call throws, or is answered without a body or with an [id] that is
    no string) for a Circle customer whose wallet covers the debit, which
    never happens with the gateway disabled (the mock transfer).  For an
    amount sent as a string with the recipient currency equal to the
    source currency it never answers 201: [recipientAmount] is then the
    string, and [toFixed] throws after the writes. *)
Theorem createTransfer_answers e wd s user body :
  transferAnswer e wd s user body.
Proof.
  unfold transferAnswer. cbv zeta.
  split; [|split; [|split; [|split; [|split; [|split]]]]].
  - unfold TransactionController.createTransfer, TransactionController.respond.
    branches; simpl; tauto.
  - unfold TransactionController.createTransfer, TransactionController.respond.
    destruct user as [u|]; [|simpl; tauto].
    split; [|discriminate]. branches; simpl; discriminate.
  - unfold TransactionController.createTransfer, TransactionController.respond.
    branches; simpl; try reflexivity; intros [H|[H|H]]; discriminate.
  - unfold TransactionController.createTransfer, TransactionController.respond.
    branches; simpl; split; intros H; try reflexivity; discriminate.
  - intros a Ha. unfold TransactionController.createTransfer.
    change TransactionController.feePercentage with 0.015.
    destruct user as [u|].
    2:{ simpl. split; [discriminate|].
        intros (_ & u & c & w & H & _). discriminate. }
    destruct (Prisma.findActiveWallet _ _ _) as [w|] eqn:Hw.
    2:{ simpl. split; [discriminate|].
        intros (_ & u' & c & w & Hu & _ & Hw' & _).
        inversion Hu; subst. congruence. }
    rewrite Ha. simpl toNum. simpl plus. simpl Prisma.decimal. cbv iota.
    destruct (availableBalance w <? a + a * 0.015) eqn:Hlt.
    { simpl. split; [discriminate|].
      intros (_ & u' & c & w' & Hu & _ & Hw' & Hle).
      inversion Hu; subst. rewrite Hw in Hw'. inversion Hw'; subst. congruence. }
    unfold TransactionController.respond, TransactionController.recipientAmount.
    assert (Hrespond :
              statusCode
                (match
                   (if String.eqb (sourceWallet body)
                         (match recipientCurrency body with
                          | Some c => c | None => "USD" end)
                    then Num a
                    else Num (a * ExchangeRateService.getExchangeRate s (now wd)
                                    (quoteApi wd) (sourceWallet body)
                                    (match recipientCurrency body with
                                     | Some c => c | None => "USD" end)))
                 with
                 | Num r =>
                     mkResponse 201 true
                       (Some (mkBreakdown (Num a) (a * 0.015)
                                (Num (a + a * 0.015))
                                (ExchangeRateService.getExchangeRate s (now wd)
                                   (quoteApi wd) (sourceWallet body)
                                   (match recipientCurrency body with
                                    | Some c => c | None => "USD" end))
                                (Js.toFixed 2 r)))
                 | Str _ => reply 500 false
                 end) = 201%nat).
    { destruct (String.eqb _ _); reflexivity. }
    destruct (truthyStr (circleCustomerId u)) as [c|] eqn:Hc.
    2:{ simpl. rewrite Hrespond. split; [discriminate|].
        intros (_ & u' & c & w' & Hu & Hc' & _).
        inversion Hu; subst. congruence. }
    unfold gatewayFails.
    destruct (CircleService.createGatewayTransfer e wd) as [| |[|id|]] eqn:Hg;
      simpl; rewrite ?Hrespond.
    + split; [|reflexivity]. intros _. split; [now left|].
      exists u, c, w. repeat split; assumption.
    + split; [|reflexivity]. intros _. split; [right; now left|].
      exists u, c, w. repeat split; assumption.
    + split; [discriminate|]. intros ([H|[H|H]] & _); discriminate.
    + split; [discriminate|]. intros ([H|[H|H]] & _); discriminate.
    + split; [|reflexivity]. intros _. split; [right; now right|].
      exists u, c, w. repeat split; assumption.
  - apply mock_gateway_answers.
  - intros text Ha Hsame.
    unfold TransactionController.createTransfer,
      TransactionController.respond, TransactionController.recipientAmount.
    rewrite Ha, <- Hsame, String.eqb_refl.
    branches; simpl; discriminate.
Qed.

Lemma createTransfer_answers_witness :
  statusCode (snd Scenario.sGatewayDown) = 500%nat /\
  gatewayFails Scenario.production (Scenario.world false) /\
  statusCode
    (snd (TransactionController.createTransfer Scenario.production
            (Scenario.world true) Scenario.sRich (Some Scenario.alice)
            (mkTransferBody (Str "50") "USD" None "Bob" None))) = 500%nat.
Proof.
  assert (H : statusCode (snd Scenario.sGatewayDown) = 500%nat)
    by (vm_compute; reflexivity).
  split; [exact H|].
  pose proof (createTransfer_answers Scenario.production (Scenario.world false)
                Scenario.s0 (Some Scenario.alice) Scenario.send50)
    as (_ & _ & _ & _ & H500 & _).
  destruct (proj1 (H500 50 eq_refl) H) as (Hfail & _).
  split; [exact Hfail|]. vm_compute. reflexivity.
Defined.

(** ** A transfer from reservation to settlement *)

Lemma find_app_none {A : Type} (p : A -> bool) (l l' : list A) :
  find p l = None -> find p (l ++ l') = find p l'.
Proof.
  induction l as [|y l IH]; simpl; [reflexivity|].
  destruct (p y); [discriminate | exact IH].
Qed.

Lemma findUniqueWallet_of_row l w :
  NoDup (map w_id l) -> In w l -> Prisma.findUniqueWallet (w_id w) l = Some w.
Proof.
  intros Hnd Hin. unfold Prisma.findUniqueWallet.
  destruct (find (fun w0 => String.eqb (w_id w0) (w_id w)) l) as [w'|] eqn:E.
  - apply find_some in E. destruct E as [Hin' Hid]. apply String.eqb_eq in Hid.
    now rewrite (unique_row l w' w Hnd Hin' Hin Hid).
  - pose proof (find_none _ _ E w Hin) as H. simpl in H.
    now rewrite String.eqb_refl in H.
Qed.

Lemma optStrEqb_false o x : o <> Some x -> optStrEqb o x = false.
Proof.
  destruct o as [y|]; simpl; [|reflexivity].
  intros H. apply String.eqb_neq. congruence.
Qed.

(** The store after the hand-over: the new transaction is the one the
    transfer id finds, it holds the amount and the fee whose sum was
    reserved, and the wallet row holds the reservation. *)
Lemma createTransfer_handed_over e wd s u body a w gid :
  handedOver e wd s u body a w gid ->
  let s1 := fst (TransactionController.createTransfer e wd s (Some u) body) in
  exists t,
    Prisma.findByCircleTransferId gid (transactions s1) = Some t /\
    t_walletId t = w_id w /\
    t_amount t + t_fee t = a + a * 0.015 /\
    t_status t = PENDING /\
    Prisma.findUniqueWallet (t_walletId t) (wallets s1) =
    Some (Prisma.reserve (a + a * 0.015) w).
Proof.
  intros (Hkey & Ha & Hw & Hle & [c Hc] & Hgw & Hgid & Hfresh). cbv zeta.
  unfold TransactionController.createTransfer. rewrite Hw, Ha.
  change TransactionController.feePercentage with 0.015.
  simpl toNum. simpl plus. simpl Prisma.decimal. cbv iota.
  rewrite Hle, Hc, Hgw.
  set (tx := mkTransaction (newId wd) _ _ _ _ _ _ _ _ _ _ _ _ _).
  simpl. exists (TransactionController.setCircle (Some gid) tx).
  split; [|split; [reflexivity|split; [reflexivity|split; [reflexivity|]]]].
  - unfold Prisma.findByCircleTransferId, Prisma.updateTransaction.
    rewrite map_app, find_app_none.
    + simpl. rewrite String.eqb_refl. simpl. now rewrite String.eqb_refl.
    + induction (transactions s) as [|t l IH]; [reflexivity|].
      simpl. destruct (Hfresh t (or_introl eq_refl)) as [Hid Hcircle].
      apply String.eqb_neq in Hid. rewrite Hid.
      rewrite (optStrEqb_false _ _ Hcircle).
      apply IH. intros t' Ht'. apply Hfresh. now right.
  - simpl. apply findUniqueWallet_update; [reflexivity|].
    apply findUniqueWallet_of_row; [exact Hkey|].
    apply find_some in Hw. tauto.
Qed.

(** X7. A transfer from reservation to completion.  The completion of a
    transfer of an amount sent as a number, handed to the gateway and then
    reported "completed", settles the operand that was reserved,
    [debit = amount + amount * 0.015]: the wallet is left with
    [balance - debit], [availableBalance - debit] and
    [(reservedBalance + debit) - debit], which in binary64 is the earlier
    reserved balance up to rounding only. *)
Theorem completed_transfer_debits_once e wd wd' s u body a w gid
    signature payload event :
  handedOver e wd s u body a w gid ->
  completedType (ev_type event) ->
  ev_dataId event = Some gid ->
  let debit := a + a * 0.015 in
  let s1 := fst (TransactionController.createTransfer e wd s (Some u) body) in
  let s2 := fst (WebhookController.handleCircleWebhook e wd' s1 signature payload
                   event) in
  exists w2,
    Prisma.findUniqueWallet (w_id w) (wallets s2) = Some w2 /\
    balance w2 = balance w - debit /\
    availableBalance w2 = availableBalance w - debit /\
    reservedBalance w2 = reservedBalance w + debit - debit.
Proof.
  intros Hover Hty Hid. cbv zeta.
  destruct (createTransfer_handed_over e wd s u body a w gid Hover)
    as (t & Ht & Hwid & Hdebit & _ & Hw1).
  destruct Hover as (_ & _ & _ & _ & _ & _ & Hgid & _).
  destruct (completedWebhook_once e wd' _ signature payload event gid t _
              Hty Hid Hgid Ht Hw1) as [_ Hw2].
  rewrite Hwid, Hdebit in Hw2.
  eexists. split; [exact Hw2|]. simpl. repeat split.
Qed.

Lemma handedOver_scenario :
  handedOver Scenario.production (Scenario.world true) Scenario.s0 Scenario.alice
    Scenario.send50 50 Scenario.usd "gw1".
Proof.
  unfold handedOver.
  split; [|split; [|split; [|split; [|split; [|split; [|split]]]]]].
  - repeat constructor. simpl. tauto.
  - reflexivity.
  - reflexivity.
  - reflexivity.
  - exists "cus_1". reflexivity.
  - reflexivity.
  - discriminate.
  - intros t [].
Defined.

Lemma completed_transfer_debits_once_witness :
  handedOver Scenario.production (Scenario.world true) Scenario.s0 Scenario.alice
    Scenario.send50 50 Scenario.usd "gw1" /\
  exists w2,
    Prisma.findUniqueWallet "w1" (wallets Scenario.sCompleted) = Some w2 /\
    balance w2 = 100 - (50 + 50 * 0.015) /\
    availableBalance w2 = 100 - (50 + 50 * 0.015) /\
    reservedBalance w2 = 0 + (50 + 50 * 0.015) - (50 + 50 * 0.015).
Proof.
  split; [exact handedOver_scenario|].
  exact (completed_transfer_debits_once Scenario.production (Scenario.world true)
           (Scenario.world true) Scenario.s0 Scenario.alice Scenario.send50 50
           Scenario.usd "gw1" (Some "sig") "{}" Scenario.completedEvent
           handedOver_scenario (or_intror eq_refl) eq_refl).
Defined.

(** The reserved balance 12.4 does not come back: a transfer of 0.3 is
    reserved and released, and 12.4 + 0.3045 - 0.3045 is another number. *)
Example reservation_not_restored :
  (12.4 + (0.3 + 0.3 * 0.015) - (0.3 + 0.3 * 0.015) =? 12.4) = false.
Proof. vm_compute. reflexivity. Qed.

(** X8. A transfer from reservation to failure.  The failure of a transfer
    of an amount sent as a number, handed to the gateway and then reported
    "failed", releases the operand that was reserved: the wallet is left
    with its [balance], with [(availableBalance - debit) + debit] and
    [(reservedBalance + debit) - debit], the earlier balances up to
    rounding, and the transaction is FAILED. *)
Theorem failed_transfer_restores_wallet e wd wd' s u body a w gid
    signature payload event :
  handedOver e wd s u body a w gid ->
  failedType (ev_type event) ->
  ev_dataId event = Some gid ->
  let debit := a + a * 0.015 in
  let s1 := fst (TransactionController.createTransfer e wd s (Some u) body) in
  let s2 := fst (WebhookController.handleCircleWebhook e wd' s1 signature payload
                   event) in
  (exists w2,
     Prisma.findUniqueWallet (w_id w) (wallets s2) = Some w2 /\
     balance w2 = balance w /\
     availableBalance w2 = availableBalance w - debit + debit /\
     reservedBalance w2 = reservedBalance w + debit - debit) /\
  (exists t2,
     Prisma.findByCircleTransferId gid (transactions s2) = Some t2 /\
     t_status t2 = FAILED).
Proof.
  intros Hover Hty Hid. cbv zeta.
  destruct (createTransfer_handed_over e wd s u body a w gid Hover)
    as (t & Ht & Hwid & Hdebit & _ & Hw1).
  destruct Hover as (_ & _ & _ & _ & _ & _ & Hgid & _).
  destruct (failedWebhook_once e wd' _ signature payload event gid t _
              Hty Hid Hgid Ht Hw1) as [Ht2 Hw2].
  rewrite Hwid, Hdebit in Hw2.
  split.
  - eexists. split; [exact Hw2|]. simpl. repeat split.
  - eexists. split; [exact Ht2 | reflexivity].
Qed.

Lemma failed_transfer_restores_wallet_witness :
  handedOver Scenario.production (Scenario.world true) Scenario.s0 Scenario.alice
    Scenario.send50 50 Scenario.usd "gw1" /\
  exists w2,
    Prisma.findUniqueWallet "w1"
      (wallets
         (fst (WebhookController.handleCircleWebhook Scenario.production
                 (Scenario.world true) Scenario.sReserved None "{}"
                 Scenario.failedEvent))) = Some w2 /\
    balance w2 = 100 /\
    availableBalance w2 = 100 - (50 + 50 * 0.015) + (50 + 50 * 0.015) /\
    reservedBalance w2 = 0 + (50 + 50 * 0.015) - (50 + 50 * 0.015).
Proof.
  split; [exact handedOver_scenario|].
  exact (proj1 (failed_transfer_restores_wallet Scenario.production
                  (Scenario.world true) (Scenario.world true) Scenario.s0
                  Scenario.alice Scenario.send50 50 Scenario.usd "gw1" None "{}"
                  Scenario.failedEvent handedOver_scenario (or_intror eq_refl)
                  eq_refl)).
Defined.

(** ** What a request leaves in place *)

Lemma walletKey_update id f l :
  (forall w, walletKey (f w) = walletKey w) ->
  map walletKey (Prisma.updateWallet id f l) = map walletKey l.
Proof.
  intros Hf. unfold Prisma.updateWallet. rewrite map_map.
  apply map_ext. intros w. now destruct (String.eqb (w_id w) id).
Qed.

Lemma txCore_update id f l :
  (forall t, txCore (f t) = txCore t) ->
  map txCore (Prisma.updateTransaction id f l) = map txCore l.
Proof.
  intros Hf. unfold Prisma.updateTransaction. rewrite map_map.
  apply map_ext. intros t. now destruct (String.eqb (t_id t) id).
Qed.

Lemma ledgerExtends_refl s : ledgerExtends s s.
Proof.
  unfold ledgerExtends. repeat split; try reflexivity;
    exists []; now rewrite app_nil_r.
Qed.

Lemma ledgerExtends_trans s1 s2 s3 :
  ledgerExtends s1 s2 -> ledgerExtends s2 s3 -> ledgerExtends s1 s3.
Proof.
  intros (Hw & [h Hh] & [t Ht] & Hx & Ho & Hoh)
         (Hw' & [h' Hh'] & [t' Ht'] & Hx' & Ho' & Hoh').
  unfold ledgerExtends. repeat split; try congruence.
  - exists (h ++ h'). now rewrite Hh', Hh, app_assoc.
  - exists (t ++ t'). now rewrite Ht', Ht, app_assoc.
Qed.

(** Closes [ledgerExtends s s'] for the store [s'] a handler builds. *)
Ltac extends :=
  unfold ledgerExtends; simpl;
  rewrite ?walletKey_update by (intros; reflexivity);
  rewrite ?map_app;
  rewrite ?txCore_update by (intros; reflexivity);
  rewrite ?map_app;
  repeat split; try reflexivity;
  first [ exists []; now rewrite app_nil_r
        | eexists; rewrite <- ?app_assoc; reflexivity ].

Lemma createTransfer_extends e wd s user body :
  ledgerExtends s (fst (TransactionController.createTransfer e wd s user body)).
Proof.
  unfold TransactionController.createTransfer.
  destruct user as [u|]; [|apply ledgerExtends_refl].
  destruct (Prisma.findActiveWallet _ _ _); [|apply ledgerExtends_refl].
  destruct (_ <? _); [apply ledgerExtends_refl|].
  destruct (Prisma.decimal (amount body)); [|apply ledgerExtends_refl].
  destruct (Prisma.decimal (plus _ _)); [|extends].
  destruct (truthyStr (circleCustomerId u));
    [destruct (CircleService.createGatewayTransfer e wd) as [| |[|id|]]|]; extends.
Qed.

Lemma updateTransactionStatus_extends wd s user id status message :
  ledgerExtends s
    (fst (TransactionController.updateTransactionStatus wd s user id status message)).
Proof.
  unfold TransactionController.updateTransactionStatus.
  destruct user as [u|]; [|apply ledgerExtends_refl].
  destruct (Prisma.findUserTransaction _ _ _); [|apply ledgerExtends_refl].
  destruct status as [status|]; [|apply ledgerExtends_refl].
  destruct (String.eqb (toUpperCase status) "COMPLETED"); simpl;
    [destruct (Prisma.findUniqueWallet _ _)|]; extends.
Qed.

Lemma addFunds_extends wd s user currency amount :
  ledgerExtends s (fst (WalletController.addFunds wd s user currency amount)).
Proof.
  unfold WalletController.addFunds.
  destruct user as [u|]; [|apply ledgerExtends_refl].
  destruct (truthyStr currency); [|apply ledgerExtends_refl].
  destruct (truthyNumOpt amount); [|apply ledgerExtends_refl].
  destruct (_ <=? _); [apply ledgerExtends_refl|].
  destruct (Prisma.findActiveWallet _ _ _); [|apply ledgerExtends_refl].
  extends.
Qed.

Lemma handleCircleWebhook_extends e wd s signature payload event :
  ledgerExtends s
    (fst (WebhookController.handleCircleWebhook e wd s signature payload event)).
Proof.
  rewrite handleCircleWebhook_dispatches. simpl. apply dispatch_cases.
  - intros message. unfold WebhookController.handleProcessing.
    destruct (truthyStr (ev_dataId event)); [|apply ledgerExtends_refl].
    destruct (Prisma.findByCircleTransferId _ _); [|apply ledgerExtends_refl].
    extends.
  - intros _. unfold WebhookController.handleTransactionCompleted.
    destruct (truthyStr (ev_dataId event)); [|apply ledgerExtends_refl].
    destruct (Prisma.findByCircleTransferId _ _); [|apply ledgerExtends_refl].
    simpl. destruct (Prisma.findUniqueWallet _ _); extends.
  - intros _. unfold WebhookController.handleTransactionFailed.
    destruct (truthyStr (ev_dataId event)); [|apply ledgerExtends_refl].
    destruct (Prisma.findByCircleTransferId _ _); [|apply ledgerExtends_refl].
    simpl. destruct (Prisma.findUniqueWallet _ _); extends.
  - apply ledgerExtends_refl.
Qed.

Lemma serve_extends e wd rq s : ledgerExtends s (fst (serve e wd rq s)).
Proof.
  destruct rq; simpl.
  - apply createTransfer_extends.
  - apply updateTransactionStatus_extends.
  - apply addFunds_extends.
  - apply handleCircleWebhook_extends.
Qed.

Lemma run_extends e rqs s : ledgerExtends s (run e rqs s).
Proof.
  revert s. induction rqs as [|[wd rq] rqs IH]; intros s; simpl.
  - apply ledgerExtends_refl.
  - eapply ledgerExtends_trans; [apply serve_extends | apply IH].
Qed.

Lemma ledgerExtends_unique s s' :
  ledgerExtends s s' -> walletIdsUnique s -> walletIdsUnique s'.
Proof.
  intros (Hw & _). unfold walletIdsUnique. intros Hu.
  assert (E : map w_id (wallets s') = map w_id (wallets s)).
  { change w_id with (fun w => fst (fst (fst (walletKey w)))).
    rewrite <- (map_map walletKey (fun k => fst (fst (fst k)))).
    rewrite Hw. now rewrite map_map. }
  now rewrite E.
Qed.

(** X9. No run of core operations (transfers, status updates, deposits,
    Circle webhooks) creates, removes or re-keys a wallet, removes or
    rewrites a row of the status history, removes a transaction or changes
    the owner, wallet, type, amount, currency or fee it was created with,
    or touches the exchange-rate cache or the onramp tables; so the wallet
    ids stay unique. *)
Theorem core_operations_extend_ledger e rqs s :
  ledgerExtends s (run e rqs s) /\
  (walletIdsUnique s -> walletIdsUnique (run e rqs s)).
Proof.
  split; [apply run_extends|].
  apply ledgerExtends_unique, run_extends.
Qed.

Lemma core_operations_extend_ledger_witness :
  walletIdsUnique Scenario.sFresh /\
  walletIdsUnique (run Scenario.production Scenario.duplicateDelivery Scenario.sFresh) /\
  map t_fee
    (transactions (run Scenario.production Scenario.duplicateDelivery Scenario.sFresh))
  = [0; 0.750].
Proof.
  assert (H : walletIdsUnique Scenario.sFresh).
  { repeat constructor. simpl. tauto. }
  split; [exact H|]. split; [|reflexivity].
  exact (proj2 (core_operations_extend_ledger Scenario.production
                  Scenario.duplicateDelivery Scenario.sFresh) H).
Defined.

(** ** Ownership *)

(** X10. [updateTransactionStatus] answers 404 and leaves the store as it
    is when no transaction with the requested id belongs to the requesting
    user: a user cannot change, or learn of, another user's transaction. *)
Theorem foreign_transaction_not_found wd s u id status message :
  (forall t, In t (transactions s) -> t_id t = id -> t_userId t <> u_id u) ->
  TransactionController.updateTransactionStatus wd s (Some u) id status message
  = (s, reply 404 false).
Proof.
  intros H. unfold TransactionController.updateTransactionStatus.
  destruct (Prisma.findUserTransaction id (u_id u) (transactions s)) as [t|] eqn:E;
    [|reflexivity].
  apply find_some in E. destruct E as [Hin Hp].
  apply andb_prop in Hp. destruct Hp as [Hid Hu].
  apply String.eqb_eq in Hid, Hu. now destruct (H t Hin Hid).
Qed.

Lemma foreign_transaction_not_found_witness :
  TransactionController.updateTransactionStatus (Scenario.world true)
    Scenario.sReserved (Some (mkUser "u2" None)) "tx1" (Some "completed") None
  = (Scenario.sReserved, reply 404 false).
Proof.
  apply (foreign_transaction_not_found (Scenario.world true) Scenario.sReserved
           (mkUser "u2" None) "tx1" (Some "completed") None).
  intros t [Ht|[]] _. subst t. discriminate.
Defined.

Lemma foreign_row_kept s id f w :
  In w (wallets s) -> w_id w <> id ->
  In w (Prisma.updateWallet id f (wallets s)).
Proof.
  intros Hin Hid. unfold Prisma.updateWallet. apply in_map_iff.
  exists w. split; [|exact Hin].
  apply String.eqb_neq in Hid. now rewrite Hid.
Qed.

Lemma findActiveWallet_owner uid c l w0 :
  Prisma.findActiveWallet uid c l = Some w0 -> In w0 l /\ w_userId w0 = uid.
Proof.
  intros H. apply find_some in H. destruct H as [Hin Hp].
  apply andb_prop in Hp. destruct Hp as [Hp _].
  apply andb_prop in Hp. destruct Hp as [Hu _].
  split; [exact Hin | now apply String.eqb_eq].
Qed.

(** X11. With unique wallet ids, [createTransfer] and [addFunds] change no
    wallet of another user: every wallet row owned by someone else is in
    the store afterwards exactly as before. *)
Theorem requests_change_own_wallet_only e wd s u w :
  walletIdsUnique s ->
  In w (wallets s) ->
  w_userId w <> u_id u ->
  (forall body,
     In w (wallets (fst (TransactionController.createTransfer e wd s (Some u) body)))) /\
  (forall currency amount,
     In w (wallets (fst (WalletController.addFunds wd s (Some u) currency amount)))).
Proof.
  intros Hkey Hin Hother.
  assert (Hrow : forall c w0 f,
            Prisma.findActiveWallet (u_id u) c (wallets s) = Some w0 ->
            In w (Prisma.updateWallet (w_id w0) f (wallets s))).
  { intros c w0 f Hw0. apply findActiveWallet_owner in Hw0.
    destruct Hw0 as [Hin0 Hu0]. apply foreign_row_kept; [exact Hin|].
    intros Hid. apply Hother.
    now rewrite (unique_row _ w w0 Hkey Hin Hin0 Hid). }
  split.
  - intros body. unfold TransactionController.createTransfer.
    destruct (Prisma.findActiveWallet _ _ _) as [w0|] eqn:Hw0; [|exact Hin].
    destruct (_ <? _); [exact Hin|].
    destruct (Prisma.decimal (amount body)); [|exact Hin].
    destruct (Prisma.decimal (plus _ _)); [|exact Hin].
    destruct (truthyStr (circleCustomerId u));
      [destruct (CircleService.createGatewayTransfer e wd) as [| |[|id|]]|]; simpl;
      exact (Hrow _ w0 _ Hw0).
  - intros currency amount. unfold WalletController.addFunds.
    destruct (truthyStr currency) as [c|]; [|exact Hin].
    destruct (truthyNumOpt amount) as [a|]; [|exact Hin].
    destruct (a <=? 0); [exact Hin|].
    destruct (Prisma.findActiveWallet _ _ _) as [w0|] eqn:Hw0; [|exact Hin].
    simpl. exact (Hrow _ w0 _ Hw0).
Qed.

(** ** addCurrencyWallet *)

Lemma find_pair_none s u c :
  ~ hasWallet s u c ->
  find (fun w => String.eqb (w_userId w) (u_id u) && String.eqb (w_currency w) c)
       (wallets s) = None.
Proof.
  intros H. destruct (find _ _) as [w|] eqn:E; [|reflexivity].
  exfalso. apply H. apply find_some in E. destruct E as [Hin Hp].
  apply andb_prop in Hp. destruct Hp as [Hu Hc].
  apply String.eqb_eq in Hu, Hc. exists w. tauto.
Qed.

Lemma find_pair_some s u c :
  hasWallet s u c ->
  exists w,
    find (fun w => String.eqb (w_userId w) (u_id u) && String.eqb (w_currency w) c)
         (wallets s) = Some w.
Proof.
  intros (w & Hin & Hu & Hc). destruct (find _ _) as [w'|] eqn:E; [eauto|].
  pose proof (find_none _ _ E w Hin) as H. simpl in H.
  rewrite Hu, Hc, !String.eqb_refl in H. discriminate.
Qed.

Lemma NoDup_snoc {A : Type} (l : list A) (x : A) :
  NoDup l -> ~ In x l -> NoDup (l ++ [x]).
Proof.
  induction l as [|y l IH]; simpl; intros Hnd Hx.
  - constructor; [tauto | constructor].
  - inversion Hnd as [|? ? Hy Hnd']; subst. constructor.
    + intros Hin. apply in_app_or in Hin. destruct Hin as [Hin|[Hin|[]]].
      * contradiction.
      * subst. tauto.
    + apply IH; tauto.
Qed.

(** X12. [addCurrencyWallet] answers 409 and changes nothing when the user
    already has a wallet row in the currency, active or not; otherwise it
    appends a wallet with the three balances at zero, which the transfer
    and deposit handlers then find as the user's active wallet.  It keeps
    "at most one wallet per user and currency", the balance equation and
    the non-negative balances. *)
Theorem addCurrencyWallet_outcome wd s u c :
  addCurrencyWalletOutcome wd s u c.
Proof.
  unfold addCurrencyWalletOutcome. cbv zeta.
  unfold WalletController.addCurrencyWallet.
  destruct (find (fun w => String.eqb (w_userId w) (u_id u)
                           && String.eqb (w_currency w) c) (wallets s))
    as [w0|] eqn:E.
  - assert (Hhas : hasWallet s u c).
    { apply find_some in E. destruct E as [Hin Hp].
      apply andb_prop in Hp. destruct Hp as [Hu Hc].
      apply String.eqb_eq in Hu, Hc. exists w0. tauto. }
    simpl. split; [reflexivity|]. split; [intros Hno; contradiction|].
    repeat split; trivial.
  - simpl. split; [|split; [|split; [|split]]].
    + intros Hhas. destruct (find_pair_some s u c Hhas) as [w Hw]. congruence.
    + intros _. split; [reflexivity|]. split; [reflexivity|].
      assert (Hact : Prisma.findActiveWallet (u_id u) c (wallets s) = None).
      { destruct (Prisma.findActiveWallet (u_id u) c (wallets s)) as [w|] eqn:F;
          [|reflexivity].
        apply find_some in F. destruct F as [Hin Hp].
        apply andb_prop in Hp. destruct Hp as [Hp _].
        pose proof (find_none _ _ E w Hin) as Hn. simpl in Hn. congruence. }
      unfold Prisma.findActiveWallet in *. rewrite (find_app_none _ _ _ Hact).
      simpl. now rewrite !String.eqb_refl.
    + unfold walletPairsUnique. simpl. intros Hnd.
      rewrite map_app. simpl. apply NoDup_snoc; [exact Hnd|].
      intros Hin. apply in_map_iff in Hin. destruct Hin as (w & Hk & Hin).
      inversion Hk as [[Hu Hc]].
      pose proof (find_none _ _ E w Hin) as Hn. simpl in Hn.
      rewrite Hu, Hc, !String.eqb_refl in Hn. discriminate.
    + unfold ledgerBalanced. simpl. intros H. apply Forall_app. split; [exact H|].
      constructor; [reflexivity | constructor].
    + unfold ledgerNonNegative. simpl. intros H. apply Forall_app. split; [exact H|].
      constructor; [repeat split; reflexivity | constructor].
Qed.

Lemma addCurrencyWallet_outcome_witness :
  hasWallet Scenario.s0 Scenario.alice "USD" /\
  WalletController.addCurrencyWallet (Scenario.world true) Scenario.s0
    (Some Scenario.alice) "USD" = (Scenario.s0, reply 409 false) /\
  ~ hasWallet Scenario.s0 Scenario.alice "GHS" /\
  statusCode
    (snd (WalletController.addCurrencyWallet (Scenario.world true) Scenario.s0
            (Some Scenario.alice) "GHS")) = 201%nat.
Proof.
  assert (H1 : hasWallet Scenario.s0 Scenario.alice "USD").
  { exists Scenario.usd. repeat split. now left. }
  assert (H2 : ~ hasWallet Scenario.s0 Scenario.alice "GHS").
  { intros (w & [Hw|[]] & _ & Hc). subst w. discriminate. }
  split; [exact H1|]. split.
  - exact (proj1 (addCurrencyWallet_outcome (Scenario.world true) Scenario.s0
                    Scenario.alice "USD") H1).
  - split; [exact H2|].
    exact (proj1 (proj1 (proj2 (addCurrencyWallet_outcome (Scenario.world true)
                                  Scenario.s0 Scenario.alice "GHS")) H2)).
Defined.

Lemma requests_change_own_wallet_only_witness :
  walletIdsUnique TwoUsers.store /\
  In TwoUsers.bobWallet (wallets TwoUsers.store) /\
  w_userId TwoUsers.bobWallet <> u_id Scenario.alice /\
  In TwoUsers.bobWallet
    (wallets (fst (TransactionController.createTransfer Scenario.production
                     (Scenario.world true) TwoUsers.store (Some Scenario.alice)
                     Scenario.send50))).
Proof.
  assert (H1 : walletIdsUnique TwoUsers.store).
  { unfold walletIdsUnique. simpl. repeat constructor; simpl; intuition discriminate. }
  assert (H2 : In TwoUsers.bobWallet (wallets TwoUsers.store)) by (right; now left).
  assert (H3 : w_userId TwoUsers.bobWallet <> u_id Scenario.alice) by discriminate.
  split; [exact H1|]. split; [exact H2|]. split; [exact H3|].
  exact (proj1 (requests_change_own_wallet_only Scenario.production
                  (Scenario.world true) TwoUsers.store Scenario.alice
                  TwoUsers.bobWallet H1 H2 H3) Scenario.send50).
Defined.

(** ** The Rampnow webhook *)

Lemma rampnow_answer_after_verification hmac json e wd s req :
  RampnowService.verifyWebhookSignature hmac e (rawBody req)
    (orStr (x_rampnow_signature req) (x_signature req)) = true ->
  statusCode (snd (RampnowWebhookController.handle hmac json e wd s req)) <> 401%nat.
Proof.
  intros H. unfold RampnowWebhookController.handle. rewrite H. simpl.
  branches; simpl; discriminate.
Qed.

(** X13. Outside development the Rampnow webhook answers 401 exactly when
    the signature header is missing, the webhook secret is not configured,
    or the header differs (ignoring case) from the HMAC of the body under
    the secret; and a 401 leaves the store untouched. *)
Theorem rampnow_signature_gate hmac json e wd s req :
  env_NODE_ENV e <> Some "development" ->
  let r := RampnowWebhookController.handle hmac json e wd s req in
  (statusCode (snd r) = 401%nat <-> ~ signatureMatches hmac e req) /\
  (statusCode (snd r) = 401%nat -> fst r = s).
Proof.
  intros Hprod. cbv zeta.
  pose proof (rampnow_signature_checked hmac e (rawBody req)
                (orStr (x_rampnow_signature req) (x_signature req)) Hprod) as Hiff.
  fold (signatureMatches hmac e req) in Hiff.
  destruct (RampnowService.verifyWebhookSignature hmac e (rawBody req)
              (orStr (x_rampnow_signature req) (x_signature req))) eqn:V.
  - pose proof (rampnow_answer_after_verification hmac json e wd s req V) as Hne.
    split.
    + split; [intros H; contradiction|].
      intros Hno. exfalso. apply Hno. now apply Hiff.
    + intros H; contradiction.
  - rewrite (rampnow_rejects_unverified hmac json e wd s req V). simpl.
    split; [|reflexivity].
    split; [|reflexivity].
    intros _ Hm. apply Hiff in Hm. discriminate.
Qed.

Lemma rampnow_signature_gate_witness :
  env_NODE_ENV Scenario.production <> Some "development" /\
  ~ signatureMatches Forged.hmac Scenario.production Forged.forged /\
  statusCode
    (snd (RampnowWebhookController.handle Forged.hmac Forged.jsonParses
            Scenario.production (Scenario.world true) Scenario.sReserved
            Forged.forged)) = 401%nat /\
  signatureMatches Forged.hmac Scenario.production Forged.signed.
Proof.
  assert (H : env_NODE_ENV Scenario.production <> Some "development")
    by discriminate.
  pose proof (rampnow_signature_gate Forged.hmac Forged.jsonParses
                Scenario.production (Scenario.world true) Scenario.sReserved
                Forged.forged H) as [Hiff _].
  assert (H401 : statusCode
            (snd (RampnowWebhookController.handle Forged.hmac Forged.jsonParses
                    Scenario.production (Scenario.world true) Scenario.sReserved
                    Forged.forged)) = 401%nat) by reflexivity.
  split; [exact H|]. split; [exact (proj1 Hiff H401)|]. split; [exact H401|].
  exists "A1B2", "whsec". repeat split.
Defined.

Lemma findUniqueWallet_key id s s' :
  wallets s' = wallets s ->
  Prisma.findUniqueWallet id (wallets s') = Prisma.findUniqueWallet id (wallets s).
Proof. now intros ->. Qed.

Lemma findOnrampBySession_row sid l t :
  Prisma.findOnrampBySession sid l = Some t -> In t l.
Proof. intros H. apply find_some in H. tauto. Qed.

Lemma updateOnramp_In id f l t :
  In t l -> o_id t = id -> In (f t) (Prisma.updateOnramp id f l).
Proof.
  intros Hin Hid. unfold Prisma.updateOnramp. apply in_map_iff.
  exists t. split; [|exact Hin]. now rewrite Hid, String.eqb_refl.
Qed.

(** X15. When [JSON.parse] throws on the description of the onramp
    transaction, a verified "completed" event is answered 500 and credits
    no wallet, yet the writes made before the parse stay: the provider
    status of the transaction is "completed" and a COMPLETED row is in the
    onramp history, while the status of the transaction is what it was. *)
Theorem rampnow_completed_half_written hmac json e wd s req tx d :
  reportsStatus hmac e s req tx "completed" ->
  truthyStr (o_description tx) = Some d ->
  json d = false ->
  onrampHalfWritten s tx (RampnowWebhookController.handle hmac json e wd s req).
Proof.
  intros (Hver & (sid & Hsid & Htx) & Hst) Hd Hjson.
  unfold onrampHalfWritten, RampnowWebhookController.handle.
  rewrite Hver, Hsid, Htx, Hst. simpl. rewrite Hd, Hjson. simpl.
  repeat split.
Qed.

Lemma rampnow_completed_half_written_witness :
  reportsStatus Forged.hmac Scenario.production Onramp.storeDescribed
    Onramp.completed Onramp.described "completed" /\
  Forged.jsonParses "Add funds: 20.20 USD -> 20 EUR" = false /\
  onrampHalfWritten Onramp.storeDescribed Onramp.described
    (RampnowWebhookController.handle Forged.hmac Forged.jsonParses
       Scenario.production (Scenario.world true) Onramp.storeDescribed
       Onramp.completed) /\
  hasBalances
    (fst (RampnowWebhookController.handle Forged.hmac Forged.jsonParses
            Scenario.production (Scenario.world true) Onramp.storeDescribed
            Onramp.completed)) "w3" 0 0 0 = true.
Proof.
  assert (H1 : reportsStatus Forged.hmac Scenario.production Onramp.storeDescribed
                 Onramp.completed Onramp.described "completed").
  { split; [reflexivity|]. split; [|reflexivity].
    exists "sess_1". split; reflexivity. }
  assert (H3 : Forged.jsonParses "Add funds: 20.20 USD -> 20 EUR" = false)
    by reflexivity.
  split; [exact H1|]. split; [exact H3|]. split; [|reflexivity].
  exact (rampnow_completed_half_written Forged.hmac Forged.jsonParses
           Scenario.production (Scenario.world true) Onramp.storeDescribed
           Onramp.completed Onramp.described "Add funds: 20.20 USD -> 20 EUR"
           H1 eq_refl H3).
Defined.

Lemma onrampKey_update id f l :
  (forall t, onrampKey (f t) = onrampKey t) ->
  map onrampKey (Prisma.updateOnramp id f l) = map onrampKey l.
Proof.
  intros Hf. unfold Prisma.updateOnramp. rewrite map_map.
  apply map_ext. intros t. now destruct (String.eqb (o_id t) id).
Qed.

Lemma truthyStr_inv o x : truthyStr o = Some x -> o = Some x.
Proof.
  destruct o as [[|c r]|]; simpl; try discriminate. now intros H; inversion H.
Qed.

Lemma rampnowFrame_refl s : rampnowFrame s s.
Proof.
  unfold rampnowFrame. repeat split. exists []. now rewrite app_nil_r.
Qed.

Ltac rampnow_frame :=
  unfold rampnowFrame; simpl;
  rewrite ?walletKey_update by (intros; reflexivity);
  rewrite ?onrampKey_update by (intros; reflexivity);
  repeat split; eexists; reflexivity.

(** X16. The Rampnow webhook never writes the transfer tables (the
    transactions and their status history) or the exchange-rate cache,
    never creates, removes or re-keys a wallet or an onramp transaction,
    and only appends to the onramp history; it changes wallet balances for
    no status but "completed". *)
Theorem rampnow_webhook_frame hmac json e wd s req :
  let s' := fst (RampnowWebhookController.handle hmac json e wd s req) in
  rampnowFrame s s' /\
  (r_status (body req) <> Some "completed" -> wallets s' = wallets s).
Proof.
  cbv zeta. unfold RampnowWebhookController.handle.
  destruct (negb _); [split; [apply rampnowFrame_refl | reflexivity]|].
  destruct (truthyStr (orStr _ _)) as [sid|];
    [|split; [apply rampnowFrame_refl | reflexivity]].
  destruct (Prisma.findOnrampBySession _ _) as [tx|];
    [|split; [apply rampnowFrame_refl | reflexivity]].
  destruct (truthyStr (r_status (body req))) as [status|] eqn:Hst;
    [|split; [apply rampnowFrame_refl | reflexivity]].
  apply truthyStr_inv in Hst.
  destruct (String.eqb_spec status "completed") as [->|Hnc].
  - simpl. destruct (negb _); [split; [rampnow_frame | reflexivity]|].
    destruct (Prisma.findUniqueWallet _ _); split;
      try rampnow_frame; try reflexivity; intros H; contradiction.
  - destruct (String.eqb status "failed"); split;
      try rampnow_frame; reflexivity.
Qed.

(** ** Runs without settlement, and the status route *)



(** X19. [updateTransactionStatus] moves money only for COMPLETED: for any
    other status it leaves every wallet as it is while it writes the status.
    A transfer set to FAILED through this route keeps its debit reserved,
    unlike one failed by the webhook. *)
Theorem status_route_releases_nothing wd s u id status message t :
  toUpperCase status <> COMPLETED ->
  Prisma.findUserTransaction id (u_id u) (transactions s) = Some t ->
  let r := TransactionController.updateTransactionStatus wd s (Some u) id
             (Some status) message in
  snd r = reply 200 true /\
  wallets (fst r) = wallets s /\
  exists t',
    Prisma.findUserTransaction id (u_id u) (transactions (fst r)) = Some t' /\
    t_status t' = toUpperCase status /\
    t_completedAt t' = t_completedAt t.
Proof.
  intros Hst Ht. cbv zeta.
  unfold TransactionController.updateTransactionStatus. rewrite Ht.
  apply String.eqb_neq in Hst. unfold COMPLETED in Hst. rewrite Hst. simpl.
  split; [reflexivity|]. split; [reflexivity|].
  eexists. split.
  - apply findUserTransaction_update; [|exact Ht]. intros y. split; reflexivity.
  - split; reflexivity.
Qed.

Lemma status_route_releases_nothing_witness :
  toUpperCase "failed" <> COMPLETED /\
  hasBalances
    (fst (TransactionController.updateTransactionStatus (Scenario.world true)
            Scenario.sReserved (Some Scenario.alice) "tx1" (Some "failed") None))
    "w1" 100 49.25 50.75 = true /\
  statusOf
    (fst (TransactionController.updateTransactionStatus (Scenario.world true)
            Scenario.sReserved (Some Scenario.alice) "tx1" (Some "failed") None))
    "tx1" = Some FAILED.
Proof.
  assert (H : toUpperCase "failed" <> COMPLETED) by discriminate.
  split; [exact H|].
  destruct (status_route_releases_nothing (Scenario.world true) Scenario.sReserved
              Scenario.alice "tx1" "failed" None
              (mkTransaction "tx1" "u1" "w1" "TRANSFER_SEND" PENDING 50 "USD" 0.750
                 (Some 0.92) (Some "EUR") (Some "gw1") (Some "GATEWAY_PROCESSING")
                 None (Some "Transfer to Bob")) H eq_refl) as (_ & Hw & _).
  split; [|reflexivity].
  unfold hasBalances. rewrite Hw. reflexivity.
Defined.
